(** * URL shortener: the code store and the short-code generator

    A shallow embedding of [internal/shortener] (store.go and the two
    revisions of service.go) together with the properties of the
    generator and of the store that the design document states.

    Go strings are byte sequences; they are embedded as [string], whose
    characters ([ascii]) are exactly the 256 byte values.  Integers are
    [Z], with the wrap-around of the Go type written where it matters. *)

From Stdlib Require Import ZArith String Ascii List Lia DecimalString.
From stdpp Require Import gmap strings list.

Local Open Scope Z_scope.

(** ** Bytes and strings *)

Definition byte_val (c : ascii) : Z := Z.of_N (N_of_ascii c).
Definition byte_of (z : Z) : ascii := ascii_of_N (Z.to_N (z mod 256)).

Definition bytes_of (s : string) : list Z := map byte_val (list_ascii_of_string s).
Definition string_of (l : list Z) : string := string_of_list_ascii (map byte_of l).

(** [s[i]] on a Go string; [None] stands for the run-time panic of an
    index out of range. *)
Definition index (s : string) (i : nat) : option ascii := String.get i s.

(** ** The Go standard library, as far as the service calls it *)

(** *** crypto/md5

    [md5.Sum] and [md5.New().Write(..).Sum(nil)] both compute the MD5
    digest of RFC 1321; the model follows the RFC on 32-bit words held
    in [Z]. *)
Module md5.

Definition Size : nat := 16.

Definition wrap32 (x : Z) : Z := x mod 2 ^ 32.
Definition not32 (x : Z) : Z := Z.lxor x 0xffffffff.
Definition rotl32 (x c : Z) : Z :=
  wrap32 (Z.lor (Z.shiftl x c) (Z.shiftr x (32 - c))).

Definition shifts : list Z :=
  [ 7; 12; 17; 22; 7; 12; 17; 22; 7; 12; 17; 22; 7; 12; 17; 22;
    5;  9; 14; 20; 5;  9; 14; 20; 5;  9; 14; 20; 5;  9; 14; 20;
    4; 11; 16; 23; 4; 11; 16; 23; 4; 11; 16; 23; 4; 11; 16; 23;
    6; 10; 15; 21; 6; 10; 15; 21; 6; 10; 15; 21; 6; 10; 15; 21 ].

(** [floor (2^32 * abs (sin (i + 1)))] for [i = 0 .. 63]. *)
Definition sines : list Z :=
  [ 0xd76aa478; 0xe8c7b756; 0x242070db; 0xc1bdceee; 0xf57c0faf; 0x4787c62a;
    0xa8304613; 0xfd469501; 0x698098d8; 0x8b44f7af; 0xffff5bb1; 0x895cd7be;
    0x6b901122; 0xfd987193; 0xa679438e; 0x49b40821; 0xf61e2562; 0xc040b340;
    0x265e5a51; 0xe9b6c7aa; 0xd62f105d; 0x02441453; 0xd8a1e681; 0xe7d3fbc8;
    0x21e1cde6; 0xc33707d6; 0xf4d50d87; 0x455a14ed; 0xa9e3e905; 0xfcefa3f8;
    0x676f02d9; 0x8d2a4c8a; 0xfffa3942; 0x8771f681; 0x6d9d6122; 0xfde5380c;
    0xa4beea44; 0x4bdecfa9; 0xf6bb4b60; 0xbebfbc70; 0x289b7ec6; 0xeaa127fa;
    0xd4ef3085; 0x04881d05; 0xd9d4d039; 0xe6db99e5; 0x1fa27cf8; 0xc4ac5665;
    0xf4292244; 0x432aff97; 0xab9423a7; 0xfc93a039; 0x655b59c3; 0x8f0ccc92;
    0xffeff47d; 0x85845dd1; 0x6fa87e4f; 0xfe2ce6e0; 0xa3014314; 0x4e0811a1;
    0xf7537e82; 0xbd3af235; 0x2ad7d2bb; 0xeb86d391 ].

(** Little-endian bytes of a word of [n] bytes, and back. *)
Fixpoint le_bytes (n : nat) (w : Z) : list Z :=
  match n with
  | O => []
  | S n' => Z.land w 255 :: le_bytes n' (Z.shiftr w 8)
  end.

Fixpoint le_word (bs : list Z) : Z :=
  match bs with
  | [] => 0
  | b :: bs' => Z.lor b (Z.shiftl (le_word bs') 8)
  end.

(** The message followed by the bit 1, zeros up to 56 modulo 64, and
    the bit length on 64 bits. *)
Definition pad (msg : list Z) : list Z :=
  let len := Z.of_nat (length msg) in
  msg ++ [128] ++ repeat 0 (Z.to_nat ((55 - len) mod 64))
      ++ le_bytes 8 ((8 * len) mod 2 ^ 64).

(** Cut a list into consecutive groups of [k] elements. *)
Fixpoint groups {A} (fuel k : nat) (l : list A) : list (list A) :=
  match fuel, l with
  | O, _ | _, [] => []
  | S fuel', _ => firstn k l :: groups fuel' k (skipn k l)
  end.

Definition words_of_block (block : list Z) : list Z :=
  map le_word (groups 16 4 block).

Record state := State { sa : Z; sb : Z; sc : Z; sd : Z }.

Definition init : state :=
  State 0x67452301 0xefcdab89 0x98badcfe 0x10325476.

Definition round (m : list Z) (st : state) (i : nat) : state :=
  let '(State a b c d) := st in
  let iz := Z.of_nat i in
  let '(f, g) :=
    if iz <? 16 then (Z.lor (Z.land b c) (Z.land (not32 b) d), iz)
    else if iz <? 32 then
      (Z.lor (Z.land d b) (Z.land (not32 d) c), (5 * iz + 1) mod 16)
    else if iz <? 48 then (Z.lxor b (Z.lxor c d), (3 * iz + 5) mod 16)
    else (Z.lxor c (Z.lor b (not32 d)), (7 * iz) mod 16) in
  let f' := wrap32 (f + a + nth i sines 0 + nth (Z.to_nat g) m 0) in
  State d (wrap32 (b + rotl32 f' (nth i shifts 0))) b c.

Definition block (st : state) (blk : list Z) : state :=
  let m := words_of_block blk in
  let '(State a b c d) := fold_left (round m) (seq 0 64) st in
  State (wrap32 (sa st + a)) (wrap32 (sb st + b))
        (wrap32 (sc st + c)) (wrap32 (sd st + d)).

Definition digest (st : state) : list Z :=
  le_bytes 4 (sa st) ++ le_bytes 4 (sb st)
    ++ le_bytes 4 (sc st) ++ le_bytes 4 (sd st).

Definition Sum (data : string) : string :=
  let padded := pad (bytes_of data) in
  string_of (digest (fold_left block (groups (length padded) 64 padded) init)).

End md5.

(** *** encoding/hex *)
Module hex.

Definition hextable : string := "0123456789abcdef".

Definition digit (v : Z) : ascii :=
  match index hextable (Z.to_nat v) with
  | Some c => c
  | None => "0"%char
  end.

(** [EncodeToString]: two lower-case digits per byte, high nibble
    first ([hextable[v>>4]], [hextable[v&0x0f]]). *)
Fixpoint EncodeToString (src : string) : string :=
  match src with
  | EmptyString => EmptyString
  | String c rest =>
      String (digit (Z.shiftr (byte_val c) 4))
        (String (digit (Z.land (byte_val c) 15)) (EncodeToString rest))
  end.

End hex.

(** *** fmt: the verb [%d] on a signed integer *)
Module fmt.

Definition d (v : Z) : string := NilZero.string_of_int (Z.to_int v).

End fmt.

(** *** strings.TrimSpace

    Removes the leading and the trailing Unicode white space of a UTF-8
    string.  White space is the six ASCII characters tab, line feed,
    vertical tab, form feed, carriage return and space, and the code
    points U+0085, U+00A0, U+1680, U+2000..U+200A, U+2028, U+2029,
    U+202F, U+205F and U+3000; the decoder of package utf8 accepts only
    the shortest encoding of a code point, so a white-space rune is
    present exactly where one of the byte sequences below is. *)
Module Strings.

Definition asciiSpace (b : Z) : bool :=
  (b =? 9) || (b =? 10) || (b =? 11) || (b =? 12) || (b =? 13) || (b =? 32).

(** U+0085 and U+00A0. *)
Definition space2 (b0 b1 : Z) : bool :=
  (b0 =? 0xC2) && ((b1 =? 0x85) || (b1 =? 0xA0)).

(** U+1680, U+2000..U+200A, U+2028, U+2029, U+202F, U+205F, U+3000. *)
Definition space3 (b0 b1 b2 : Z) : bool :=
  ((b0 =? 0xE1) && (b1 =? 0x9A) && (b2 =? 0x80))
  || ((b0 =? 0xE2) && (b1 =? 0x80)
      && (((0x80 <=? b2) && (b2 <=? 0x8A))
          || (b2 =? 0xA8) || (b2 =? 0xA9) || (b2 =? 0xAF)))
  || ((b0 =? 0xE2) && (b1 =? 0x81) && (b2 =? 0x9F))
  || ((b0 =? 0xE3) && (b1 =? 0x80) && (b2 =? 0x80)).

Fixpoint trimLeft (l : list ascii) : list ascii :=
  match l with
  | [] => []
  | c0 :: r0 =>
      if asciiSpace (byte_val c0) then trimLeft r0 else
      match r0 with
      | c1 :: r1 =>
          if space2 (byte_val c0) (byte_val c1) then trimLeft r1 else
          match r1 with
          | c2 :: r2 =>
              if space3 (byte_val c0) (byte_val c1) (byte_val c2)
              then trimLeft r2 else l
          | [] => l
          end
      | [] => l
      end
  end.

(** The same scan from the end, on the reversed bytes. *)
Fixpoint trimLeftRev (l : list ascii) : list ascii :=
  match l with
  | [] => []
  | c0 :: r0 =>
      if asciiSpace (byte_val c0) then trimLeftRev r0 else
      match r0 with
      | c1 :: r1 =>
          if space2 (byte_val c1) (byte_val c0) then trimLeftRev r1 else
          match r1 with
          | c2 :: r2 =>
              if space3 (byte_val c2) (byte_val c1) (byte_val c0)
              then trimLeftRev r2 else l
          | [] => l
          end
      | [] => l
      end
  end.

Definition trimRight (l : list ascii) : list ascii :=
  rev (trimLeftRev (rev l)).

Definition TrimSpace (s : string) : string :=
  string_of_list_ascii (trimRight (trimLeft (list_ascii_of_string s))).

(** [strings.Contains]. *)
Fixpoint Contains (s substr : string) : bool :=
  String.prefix substr s
  || match s with
     | EmptyString => false
     | String _ rest => Contains rest substr
     end.

End Strings.

(** ** The sources of time and randomness

    [time.Now().UnixNano()] and the service's [*rand.Rand] are the only
    inputs of the generator besides its arguments.  They are modelled as
    two tapes of readings, consumed one reading per call, so that a run
    of the service is a function of the tapes. *)
Record Env := mkEnv {
  clock : nat -> Z;   (* successive readings of the wall clock *)
  ticks : nat;        (* readings taken so far *)
  source : nat -> Z;  (* successive outputs of the random source *)
  draws : nat         (* outputs taken so far *)
}.

Definition wrap_int64 (z : Z) : Z := (z + 2 ^ 63) mod 2 ^ 64 - 2 ^ 63.

(** [time.Now().UnixNano()], an [int64]. *)
Definition UnixNano (e : Env) : Z * Env :=
  (wrap_int64 (clock e (ticks e)),
   mkEnv (clock e) (S (ticks e)) (source e) (draws e)).

(** [rand.Int63()], a non-negative [int64]. *)
Definition Int63 (e : Env) : Z * Env :=
  (source e (draws e) mod 2 ^ 63,
   mkEnv (clock e) (ticks e) (source e) (S (draws e))).

(** [rand.Int31()]: the high 31 bits of [Int63()]. *)
Definition Int31 (e : Env) : Z * Env :=
  let '(v, e1) := Int63 e in (Z.shiftr v 32, e1).

(** The loop [for v > max { v = draw() }] of [Int31n] and [Int63n].  It
    has no bound in Go.  Here it gives up after [fuel] further values
    and keeps the last one; the statements about it are made for
    sources on which the loop ends by its own test. *)
Fixpoint redraw (draw : Env -> Z * Env) (fuel : nat) (max v : Z) (e : Env)
    : Z * Env :=
  match fuel with
  | O => (v, e)
  | S fuel' =>
      if v >? max then
        let '(v', e1) := draw e in redraw draw fuel' max v' e1
      else (v, e)
  end.

Definition redraw_limit : nat := 1024.

(** [rand.Int31n(n)] for [0 < n]. *)
Definition Int31n (n : Z) (e : Env) : Z * Env :=
  if Z.land n (n - 1) =? 0 then
    let '(v, e1) := Int31 e in (Z.land v (n - 1), e1)
  else
    let max := 2 ^ 31 - 1 - (2 ^ 31) mod n in
    let '(v, e1) := Int31 e in
    let '(v, e2) := redraw Int31 redraw_limit max v e1 in
    (v mod n, e2).

(** [rand.Int63n(n)] for [0 < n]. *)
Definition Int63n (n : Z) (e : Env) : Z * Env :=
  if Z.land n (n - 1) =? 0 then
    let '(v, e1) := Int63 e in (Z.land v (n - 1), e1)
  else
    let max := 2 ^ 63 - 1 - (2 ^ 63) mod n in
    let '(v, e1) := Int63 e in
    let '(v, e2) := redraw Int63 redraw_limit max v e1 in
    (v mod n, e2).

(** [rand.Intn(n)] for [0 < n], a value in [[0, n)]. *)
Definition Intn (n : Z) (e : Env) : Z * Env :=
  if n <=? 2 ^ 31 - 1 then Int31n n e else Int63n n e.

(** ** store.go

    [Store] is a map guarded by a [sync.RWMutex].  Every method takes
    the lock on entry and releases it by a deferred unlock, so between
    two calls of a sequential run the mutex is free; the state of a
    store is its map.  Methods have a pointer receiver: each takes the
    store and returns its result together with the store it leaves. *)
Module Store.

Record t := mk { urls : gmap string string }.

Definition NewStore : t := mk ∅.

Definition Save (shortCode longURL : string) (s : t) : unit * t :=
  (tt, mk (<[shortCode := longURL]> (urls s))).

Definition Get (shortCode : string) (s : t) : (string * bool) * t :=
  (match urls s !! shortCode with
   | Some longURL => (longURL, true)
   | None => ("", false)
   end, s).

Definition Exists (shortCode : string) (s : t) : bool * t :=
  (match urls s !! shortCode with
   | Some _ => true
   | None => false
   end, s).

Definition Count (s : t) : nat * t := (size (urls s), s).

End Store.

(** ** service.go: declarations shared by the two revisions *)

Definition ShortCodeLength : nat := 6.
Definition MaxRetries : nat := 10.
Definition ValidChars : string :=
  "abcdefghijklmnopqrstuvwxyzABCDEFGHIJKLMNOPQRSTUVWXYZ0123456789".

(** The error values of the package; [nil] is [None : option error]. *)
Inductive error :=
| ErrInvalidURL
| ErrEmptyURL
| ErrMaxRetries
| ErrURLNotFound
| ErrServiceUnavailable
| ValidationError (Field Value Msg : string)
| Recovered (msg : string).   (* built by a [recover] handler *)

(** What the service can touch: its store, its random source and the
    clock. *)
Record Service := mkService { store : Store.t; env : Env }.

(** [s[i]] where the index is known to be in range.  The service indexes
    [ValidChars] with a remainder modulo [len(ValidChars)] and the
    32-character hash below [ShortCodeLength] (lemmas [ValidChars_total]
    and [hash_length]), so the out-of-range panic, and with it the
    [recover] handlers of the callers, cannot be reached. *)
Definition at_ (s : string) (i : nat) : ascii :=
  match index s i with
  | Some c => c
  | None => "000"%char
  end.

Definition ValidChars_at (i : Z) : ascii := at_ ValidChars (Z.to_nat i).

Definition WriteByte (result : string) (c : ascii) : string :=
  result +:+ String c "".

(** *** net/url

    [url.Parse] is taken as given: it either fails with a message or
    yields a URL, of which the service reads the scheme and the host. *)
Record URL := mkURL { Scheme : string; Host : string }.

Inductive ParseResult :=
| Parsed (u : URL)
| ParseError (msg : string).

Section Shared.

(** The two functions in which the revisions differ. *)
Variable validateURL : string -> option error.
Variable generateShortCode : string -> Z -> Env -> string * Env.

(** The [switch] of the retry loop: the candidate of one attempt. *)
Definition candidate (longURL : string) (attempt : Z) (e : Env) : string * Env :=
  if attempt <? 3 then generateShortCode longURL attempt e
  else if attempt <? 7 then generateShortCode longURL (attempt * 2) e
  else
    let '(now, e1) := UnixNano e in
    generateShortCode (longURL +:+ "_" +:+ fmt.d now) attempt e1.

(** [for attempt := ...; attempt < MaxRetries; attempt++], with
    [remaining = MaxRetries - attempt] iterations still to run. *)
Fixpoint retry (remaining : nat) (longURL : string) (attempt : Z)
    (s : Service) : (string * option error) * Service :=
  match remaining with
  | O => (("", Some ErrMaxRetries), s)
  | S remaining' =>
      let '(shortCode, e1) := candidate longURL attempt (env s) in
      let '(exists_, st1) := Store.Exists shortCode (store s) in
      if negb exists_ then ((shortCode, None), mkService st1 e1)
      else retry remaining' longURL (attempt + 1) (mkService st1 e1)
  end.

Definition generateUniqueShortCode (longURL : string) (s : Service)
    : (string * option error) * Service :=
  retry MaxRetries longURL 0 s.

Definition ShortenURL (longURL : string) (s : Service)
    : (string * option error) * Service :=
  match validateURL longURL with
  | Some err => (("", Some err), s)
  | None =>
      let '((shortCode, err), s1) := generateUniqueShortCode longURL s in
      match err with
      | Some err => (("", Some err), s1)
      | None =>
          let '(_, st2) := Store.Save shortCode longURL (store s1) in
          ((shortCode, None), mkService st2 (env s1))
      end
  end.

Definition GetLongURL (shortCode : string) (s : Service)
    : (string * option error) * Service :=
  let trimmedCode := Strings.TrimSpace shortCode in
  if decide (trimmedCode = "") then (("", Some ErrEmptyURL), s)
  else
    let '((longURL, exists_), st1) := Store.Get trimmedCode (store s) in
    if negb exists_ then (("", Some ErrURLNotFound), mkService st1 (env s))
    else ((longURL, None), mkService st1 (env s)).

Definition GetStats (s : Service) : nat * Service :=
  let '(n, st1) := Store.Count (store s) in (n, mkService st1 (env s)).

End Shared.

(** ** service.go, the revision that builds the base string with
    [Sprintf] and extracts the code with [extractValidChars] *)
Module Builder.

Section Validate.
Variable Parse : string -> ParseResult.

Definition validateURL (longURL : string) : option error :=
  if decide (longURL = "") then
    Some (ValidationError "long_url" longURL "no puede estar vacía")
  else
    let trimmedURL := Strings.TrimSpace longURL in
    if decide (trimmedURL = "") then
      Some (ValidationError "long_url" longURL
              "no puede contener solo espacios")
    else if (String.length trimmedURL <? 7)%nat then
      Some (ValidationError "long_url" longURL
              "demasiado corta para ser una URL válida")
    else
      match Parse trimmedURL with
      | ParseError msg =>
          Some (ValidationError "long_url" longURL
                  ("formato inválido: " +:+ msg))
      | Parsed parsedURL =>
          if negb (String.eqb (Scheme parsedURL) "http")
             && negb (String.eqb (Scheme parsedURL) "https") then
            Some (ValidationError "long_url" longURL
                    "debe usar esquema http o https")
          else if String.eqb (Host parsedURL) "" then
            Some (ValidationError "long_url" longURL
                    "debe tener un host válido")
          else None
      end.
End Validate.

(** First loop of [extractValidChars]: one symbol per byte of the
    hash while the result is short of [length]. *)
Fixpoint fromHash (hash : string) (length : nat) (result : string) : string :=
  match hash with
  | EmptyString => result
  | String c rest =>
      if (String.length result <? length)%nat then
        fromHash rest length
          (WriteByte result
             (ValidChars_at (byte_val c mod Z.of_nat (String.length ValidChars))))
      else result
  end.

(** Second loop: random symbols while the result is still short; it
    adds one symbol per turn, so [missing] turns are enough. *)
Fixpoint fill (missing length : nat) (result : string) (e : Env) : string * Env :=
  match missing with
  | O => (result, e)
  | S missing' =>
      if (String.length result <? length)%nat then
        let '(charIndex, e1) := Intn (Z.of_nat (String.length ValidChars)) e in
        fill missing' length (WriteByte result (ValidChars_at charIndex)) e1
      else (result, e)
  end.

Definition extractValidChars (hash : string) (length : nat) (e : Env)
    : string * Env :=
  let result := fromHash hash length "" in
  fill (length - String.length result) length result e.

Definition baseString (longURL : string) (timestamp randomNum attempt : Z)
    : string :=
  longURL +:+ "-" +:+ fmt.d timestamp +:+ "-" +:+ fmt.d randomNum
          +:+ "-" +:+ fmt.d attempt.

Definition generateShortCode (longURL : string) (attempt : Z) (e : Env)
    : string * Env :=
  let '(timestamp, e1) := UnixNano e in
  let '(randomNum, e2) := Int63 e1 in
  let hash :=
    hex.EncodeToString
      (md5.Sum (baseString longURL timestamp randomNum attempt)) in
  extractValidChars hash ShortCodeLength e2.

End Builder.

(** ** service.go, the revision that builds the entry with a closure
    and fills a fixed-size byte slice *)
Module Closure.

Section Validate.
Variable Parse : string -> ParseResult.

Definition validateURLBasics (longURL : string) : option error :=
  if decide (longURL = "") then
    Some (ValidationError "long_url" longURL "no puede estar vacía")
  else if decide (Strings.TrimSpace longURL = "") then
    Some (ValidationError "long_url" longURL
            "no puede contener solo espacios")
  else None.

Definition validateURLFormat (longURL : string) : option error :=
  match Parse longURL with
  | ParseError _ =>
      Some (ValidationError "long_url" longURL "formato inválido")
  | Parsed parsedURL =>
      if negb (String.eqb (Scheme parsedURL) "http")
         && negb (String.eqb (Scheme parsedURL) "https") then
        Some (ValidationError "long_url" longURL
                "debe usar esquema http o https")
      else if String.eqb (Host parsedURL) "" then
        Some (ValidationError "long_url" longURL
                "debe tener un host válido")
      else None
  end.

Definition blockedDomains : list string :=
  ["malware.com"; "phishing.net"; "spam.org"].

(** The parse error is discarded here; a failed parse would leave a
    nil URL whose dereference panics, which [ShortenURL] recovers
    into an error. *)
Definition validateURLSecurity (longURL : string) : option error :=
  match Parse longURL with
  | ParseError _ =>
      Some (Recovered "error crítico en ShortenURL: nil pointer dereference")
  | Parsed parsedURL =>
      if existsb (Strings.Contains (Host parsedURL)) blockedDomains then
        Some (ValidationError "long_url" longURL
                "dominio bloqueado por seguridad")
      else None
  end.

Definition validateURL (longURL : string) : option error :=
  match validateURLBasics longURL with
  | Some err => Some err
  | None =>
      match validateURLFormat longURL with
      | Some err => Some err
      | None => validateURLSecurity longURL
      end
  end.
End Validate.

(** [createEntryGenerator] reads the clock and the random source when
    it is called; the closure it returns only formats what was read. *)
Definition createEntryGenerator (longURL : string) (attempt : Z) (e : Env)
    : (unit -> string) * Env :=
  let '(timestamp, e1) := UnixNano e in
  let '(randomValue, e2) := Int63 e1 in
  (fun _ =>
     longURL +:+ "_" +:+ fmt.d timestamp +:+ "_" +:+ fmt.d attempt
             +:+ "_" +:+ fmt.d randomValue,
   e2).

Definition generateShortCode (longURL : string) (attempt : Z) (e : Env)
    : string * Env :=
  let '(entryGenerator, e1) := createEntryGenerator longURL attempt e in
  let entry := entryGenerator tt in
  let hashString := hex.EncodeToString (md5.Sum entry) in
  (string_of_list_ascii
     (map (fun i =>
             ValidChars_at (byte_val (at_ hashString i)
                              mod Z.of_nat (String.length ValidChars)))
          (seq 0 ShortCodeLength)),
   e1).

End Closure.

(** ** The two revisions, side by side *)

(** The composite input that each revision hashes. *)
Definition Builder_input (longURL : string) (attempt : Z) (e : Env) : string :=
  Builder.baseString longURL (fst (UnixNano e))
    (fst (Int63 (snd (UnixNano e)))) attempt.

Definition Closure_input (longURL : string) (attempt : Z) (e : Env) : string :=
  longURL +:+ "_" +:+ fmt.d (fst (UnixNano e)) +:+ "_" +:+ fmt.d attempt
          +:+ "_" +:+ fmt.d (fst (Int63 (snd (UnixNano e)))).

Inductive Revision := Builder_revision | Closure_revision.

Definition rev_validateURL (rev : Revision) (Parse : string -> ParseResult)
    : string -> option error :=
  match rev with
  | Builder_revision => Builder.validateURL Parse
  | Closure_revision => Closure.validateURL Parse
  end.

Definition rev_generateShortCode (rev : Revision)
    : string -> Z -> Env -> string * Env :=
  match rev with
  | Builder_revision => Builder.generateShortCode
  | Closure_revision => Closure.generateShortCode
  end.

Definition rev_input (rev : Revision) : string -> Z -> Env -> string :=
  match rev with
  | Builder_revision => Builder_input
  | Closure_revision => Closure_input
  end.

(** ** Vocabulary of the properties *)

Abbreviation chars := list_ascii_of_string.

Definition alphabet : list ascii := chars ValidChars.

Definition hex_digits : list ascii := chars hex.hextable.

(** The symbols reachable from a hexadecimal digit. *)
Definition hex_symbols : list ascii := chars "JKLMNOWXYZ012345".

(** The symbol selected by one byte of the hash. *)
Definition symbol (c : ascii) : ascii :=
  ValidChars_at (byte_val c mod Z.of_nat (String.length ValidChars)).

(** Both revisions turn the first [ShortCodeLength] characters of the
    hash string into symbols, one by one. *)
Definition code_of_hash (hash : string) : string :=
  string_of_list_ascii (map symbol (take ShortCodeLength (chars hash))).

(** The mapping as the design document words it: each of the first [L]
    bytes of the digest selects [alphabet[byte mod alphabet_size]]. *)
Definition digest_code (digest : string) : string :=
  string_of_list_ascii
    (map (fun b => at_ ValidChars (Z.to_nat (byte_val b mod 62)))
         (take ShortCodeLength (chars digest))).

(** The candidates that [n] consecutive turns of the loop derive,
    starting at [attempt], whether or not the loop stops earlier. *)
Fixpoint candidates (generateShortCode : string -> Z -> Env -> string * Env)
    (n : nat) (longURL : string) (attempt : Z) (e : Env) : list string :=
  match n with
  | O => []
  | S n' =>
      let '(shortCode, e1) := candidate generateShortCode longURL attempt e in
      shortCode :: candidates generateShortCode n' longURL (attempt + 1) e1
  end.

(** The escalation as the design document words it: attempts [0..2]
    hash [(target, attempt)], attempts [3..6] hash [(target, attempt*2)],
    attempts [7..R-1] hash the target followed by a fresh timestamp. *)
Definition tier_input (target : string) (attempt : Z) (e : Env)
    : (string * Z) * Env :=
  if (0 <=? attempt) && (attempt <=? 2) then ((target, attempt), e)
  else if (3 <=? attempt) && (attempt <=? 6) then ((target, attempt * 2), e)
  else
    let '(now, e1) := UnixNano e in
    ((target +:+ "_" +:+ fmt.d now, attempt), e1).

Fixpoint tier_candidates (derive : string -> Z -> Env -> string * Env)
    (attempts : list Z) (target : string) (e : Env) : list string :=
  match attempts with
  | [] => []
  | attempt :: rest =>
      let '((input, salt), e1) := tier_input target attempt e in
      let '(code, e2) := derive input salt e1 in
      code :: tier_candidates derive rest target e2
  end.

(** The first candidate that the store does not hold, or exhaustion. *)
Definition first_absent (st : Store.t) (cands : list string)
    : string * option error :=
  match find (fun c => negb (fst (Store.Exists c st))) cands with
  | Some c => (c, None)
  | None => ("", Some ErrMaxRetries)
  end.

Fixpoint countFrom (a : Z) (n : nat) : list Z :=
  match n with
  | O => []
  | S n' => a :: countFrom (a + 1) n'
  end.

(** A sequence of [ShortenURL] calls, each followed at once by
    [GetLongURL] on the code it returned. *)
Fixpoint session (validateURL : string -> option error)
    (generateShortCode : string -> Z -> Env -> string * Env)
    (targets : list string) (s : Service)
    : list ((string * option error) * (string * option error)) * Service :=
  match targets with
  | [] => ([], s)
  | target :: rest =>
      let '(generated, s1) := ShortenURL validateURL generateShortCode target s in
      let '(resolved, s2) := GetLongURL (fst generated) s1 in
      let '(log, s3) := session validateURL generateShortCode rest s2 in
      ((generated, resolved) :: log, s3)
  end.

Definition codes (log : list ((string * option error) * (string * option error)))
    : list string :=
  map (fun entry => fst (fst entry)) log.

Definition all_generated (log : list ((string * option error) * (string * option error)))
    : Prop :=
  Forall (fun entry => snd (fst entry) = None) log.

(** ** Two calls at once

    [Store.Exists] and [Store.Save] each run under the lock of the
    store, so each is indivisible; between them [ShortenURL] holds no
    lock.  A call that has passed [validateURL] is therefore a little
    machine whose steps are: derive the candidate of the next attempt
    (this touches the clock and the random source only), probe the store
    with [Exists], and, once a probe reported absence, [Save]. *)
Inductive Phase :=
| Deriving (remaining : nat) (attempt : Z)
| Probing (remaining : nat) (attempt : Z) (shortCode : string)
| Saving (shortCode : string)
| Returned (result : string * option error).

Record Call := mkCall { target : string; phase : Phase }.

Definition start (longURL : string) : Call :=
  mkCall longURL (Deriving MaxRetries 0).

Inductive Turn := T1 | T2.

Record Config := mkConfig { call1 : Call; call2 : Call; shared : Service }.

Section Interleaving.

Variable generateShortCode : string -> Z -> Env -> string * Env.

Definition step (c : Call) (s : Service) : Call * Service :=
  match phase c with
  | Deriving O _ =>
      (mkCall (target c) (Returned ("", Some ErrMaxRetries)), s)
  | Deriving (S remaining) attempt =>
      let '(shortCode, e1) :=
        candidate generateShortCode (target c) attempt (env s) in
      (mkCall (target c) (Probing remaining attempt shortCode),
       mkService (store s) e1)
  | Probing remaining attempt shortCode =>
      let '(exists_, st1) := Store.Exists shortCode (store s) in
      if negb exists_ then
        (mkCall (target c) (Saving shortCode), mkService st1 (env s))
      else
        (mkCall (target c) (Deriving remaining (attempt + 1)),
         mkService st1 (env s))
  | Saving shortCode =>
      let '(_, st1) := Store.Save shortCode (target c) (store s) in
      (mkCall (target c) (Returned (shortCode, None)), mkService st1 (env s))
  | Returned _ => (c, s)
  end.

(** One call running with nobody else. *)
Fixpoint alone (n : nat) (c : Call) (s : Service) : Call * Service :=
  match n with
  | O => (c, s)
  | S n' => let '(c1, s1) := step c s in alone n' c1 s1
  end.

(** Two calls, scheduled turn by turn. *)
Definition turn (cfg : Config) (t : Turn) : Config :=
  match t with
  | T1 => let '(c, s) := step (call1 cfg) (shared cfg) in
          mkConfig c (call2 cfg) s
  | T2 => let '(c, s) := step (call2 cfg) (shared cfg) in
          mkConfig (call1 cfg) c s
  end.

Definition run (schedule : list Turn) (cfg : Config) : Config :=
  fold_left turn schedule cfg.

(** What an atomic check-and-insert would give: no schedule lets both
    calls return the same code. *)
Definition no_double_claim : Prop :=
  forall (longURL1 longURL2 : string) (s : Service) (schedule : list Turn)
         (code : string),
    let final := run schedule (mkConfig (start longURL1) (start longURL2) s) in
    ~ (phase (call1 final) = Returned (code, None)
       /\ phase (call2 final) = Returned (code, None)).

(** What [ShortenURL] does with the outcome of the loop. *)
Definition complete (longURL : string)
    (outcome : (string * option error) * Service)
    : (string * option error) * Service :=
  let '((shortCode, err), s1) := outcome in
  match err with
  | Some err => (("", Some err), s1)
  | None =>
      let '(_, st2) := Store.Save shortCode longURL (store s1) in
      ((shortCode, None), mkService st2 (env s1))
  end.

End Interleaving.

(** ** The history of a run

    A [Save] is made exactly when the call whose turn it is stands at
    [Saving]: the history lists these calls in the order in which they
    are made, with the caller, the code and the target. *)
Global Instance Turn_eq_dec : EqDecision Turn.
Proof. solve_decision. Defined.

Definition saving (c : Call) : option (string * string) :=
  match phase c with
  | Saving shortCode => Some (shortCode, target c)
  | _ => None
  end.

Definition scheduled (cfg : Config) (t : Turn) : Call :=
  match t with
  | T1 => call1 cfg
  | T2 => call2 cfg
  end.

Fixpoint saves (generateShortCode : string -> Z -> Env -> string * Env)
    (schedule : list Turn) (cfg : Config) : list (Turn * (string * string)) :=
  match schedule with
  | [] => []
  | t :: rest =>
      match saving (scheduled cfg t) with
      | Some entry =>
          (t, entry) :: saves generateShortCode rest (turn generateShortCode cfg t)
      | None => saves generateShortCode rest (turn generateShortCode cfg t)
      end
  end.

(** Who made the last [Save] under [code], and with which target. *)
Fixpoint last_write (history : list (Turn * (string * string))) (code : string)
    : option (Turn * string) :=
  match history with
  | [] => None
  | (t, (k, v)) :: rest =>
      match last_write rest code with
      | Some w => Some w
      | None => if decide (k = code) then Some (t, v) else None
      end
  end.

(** ** service.go: the text of an error

    The sentinel errors are made by [errors.New]; [ValidationError]
    has its [Error] method; an error made by a [recover] handler carries
    its text. *)
Definition Error (err : error) : string :=
  match err with
  | ErrInvalidURL => "URL inválida"
  | ErrEmptyURL => "URL no puede estar vacía"
  | ErrMaxRetries =>
      "máximo número de reintentos alcanzado para generar código único"
  | ErrURLNotFound => "URL no encontrada"
  | ErrServiceUnavailable => "servicio no disponible"
  | ValidationError Field Value Msg =>
      "validación falló en campo '" +:+ Field +:+ "' con valor '" +:+ Value
        +:+ "': " +:+ Msg
  | Recovered msg => msg
  end.

(** [errors.Is(err, target)] for a sentinel [target]: no error of the
    package wraps another, so it is identity with the sentinel. *)
Definition errors_Is (err target : error) : bool :=
  match err, target with
  | ErrInvalidURL, ErrInvalidURL
  | ErrEmptyURL, ErrEmptyURL
  | ErrMaxRetries, ErrMaxRetries
  | ErrURLNotFound, ErrURLNotFound
  | ErrServiceUnavailable, ErrServiceUnavailable => true
  | _, _ => false
  end.

(** ** handlers/http.go

    The handlers are embedded from the decoded request on: what they
    read of a request is the header [Content-Type], the method, the
    outcome of decoding the JSON body into a [ShortenRequest], the TLS
    state, the header [X-Forwarded-Proto], the host and the URL
    parameter [short_code].  What they write is the header map, the
    status code and the value they encode as the body. *)
Module Handlers.

Inductive Decoded :=
| DecodeError (msg : string)
| ShortenRequest (LongURL : string).

Record Request := mkRequest {
  ContentType : string;
  Method : string;
  Body : Decoded;
  TLS : bool;
  XForwardedProto : string;
  Host : string;
  short_code : string
}.

Inductive Payload :=
| NoBody
| ErrorResponse (Error Message : string)
| ShortenResponse (ShortURL : string).

Record ResponseWriter := mkWriter {
  Header : gmap string string;
  Code : Z;
  Written : Payload
}.

(** A fresh recorder. *)
Definition NewRecorder : ResponseWriter := mkWriter ∅ 200 NoBody.

Definition StatusCreated : Z := 201.
Definition StatusTemporaryRedirect : Z := 307.
Definition StatusBadRequest : Z := 400.
Definition StatusNotFound : Z := 404.
Definition StatusMethodNotAllowed : Z := 405.
Definition StatusInternalServerError : Z := 500.

Definition Header_Set (key value : string) (w : ResponseWriter) : ResponseWriter :=
  mkWriter (<[key := value]> (Header w)) (Code w) (Written w).

Definition WriteHeader (statusCode : Z) (w : ResponseWriter) : ResponseWriter :=
  mkWriter (Header w) statusCode (Written w).

Definition Encode (v : Payload) (w : ResponseWriter) : ResponseWriter :=
  mkWriter (Header w) (Code w) v.

Definition sendErrorResponse (w : ResponseWriter) (statusCode : Z)
    (errorCode message : string) : ResponseWriter :=
  Encode (ErrorResponse errorCode message)
    (WriteHeader statusCode (Header_Set "Content-Type" "application/json" w)).

Definition getBaseURL (r : Request) : string :=
  let scheme := if TLS r then "https" else "http" in
  let scheme :=
    if decide (XForwardedProto r = "") then scheme else XForwardedProto r in
  let host := if decide (Host r = "") then "localhost:8080" else Host r in
  scheme +:+ "://" +:+ host.

Section Handler.

(** The service behind the handler: one of the revisions. *)
Variable validateURL : string -> option error.
Variable generateShortCode : string -> Z -> Env -> string * Env.

Definition ShortenURL (w : ResponseWriter) (r : Request) (s : Service)
    : ResponseWriter * Service :=
  let w := Header_Set "Content-Type" "application/json" w in
  if negb (String.eqb (ContentType r) "application/json") then
    (sendErrorResponse w StatusBadRequest "invalid_content_type"
       "Content-Type debe ser application/json", s)
  else if negb (String.eqb (Method r) "POST") then
    (sendErrorResponse w StatusMethodNotAllowed "method_not_allowed"
       "Método no permitido", s)
  else
    match Body r with
    | DecodeError msg =>
        (sendErrorResponse w StatusBadRequest "invalid_json"
           ("Formato JSON inválido: " +:+ msg), s)
    | ShortenRequest LongURL =>
        if decide (Strings.TrimSpace LongURL = "") then
          (sendErrorResponse w StatusBadRequest "empty_url"
             "La URL no puede estar vacía", s)
        else
          (* h.service.ShortenURL, the method of the service *)
          let '((shortCode, err), s1) :=
            ShortenURL validateURL generateShortCode LongURL s in
          match err with
          | Some err =>
              (if errors_Is err ErrInvalidURL then
                 sendErrorResponse w StatusBadRequest "invalid_url" "URL inválida"
               else if errors_Is err ErrEmptyURL then
                 sendErrorResponse w StatusBadRequest "empty_url"
                   "La URL no puede estar vacía"
               else if errors_Is err ErrMaxRetries then
                 sendErrorResponse w StatusInternalServerError
                   "generation_failed" "No se pudo generar un código único"
               else if Strings.Contains (Error err) "crítico" then
                 sendErrorResponse w StatusInternalServerError
                   "critical_error" "Error crítico del sistema"
               else
                 sendErrorResponse w StatusInternalServerError
                   "internal_error" ("Error interno: " +:+ Error err),
               s1)
          | None =>
              let baseURL := getBaseURL r in
              let shortURL := baseURL +:+ "/" +:+ shortCode in
              (Encode (ShortenResponse shortURL) (WriteHeader StatusCreated w),
               s1)
          end
    end.

End Handler.

Definition RedirectURL (w : ResponseWriter) (r : Request) (s : Service)
    : ResponseWriter * Service :=
  let shortCode := short_code r in
  if decide (shortCode = "") then
    (sendErrorResponse w StatusBadRequest "missing_code"
       "Código corto requerido", s)
  else
    let '((longURL, err), s1) := GetLongURL shortCode s in
    match err with
    | Some err =>
        (if errors_Is err ErrURLNotFound then
           sendErrorResponse w StatusNotFound "not_found"
             "Código corto no encontrado"
         else if Strings.Contains (Error err) "crítico" then
           sendErrorResponse w StatusInternalServerError
             "critical_error" "Error crítico del sistema"
         else
           sendErrorResponse w StatusInternalServerError
             "internal_error" ("Error interno: " +:+ Error err),
         s1)
    | None =>
        (WriteHeader StatusTemporaryRedirect (Header_Set "Location" longURL w),
         s1)
    end.

End Handlers.

(** ** More vocabulary *)

(** The number of turns the retry loop makes over the candidates
    [cands]: up to and including the first absent one. *)
Fixpoint attempts_made (st : Store.t) (cands : list string) : nat :=
  match cands with
  | [] => O
  | c :: rest =>
      if negb (fst (Store.Exists c st)) then 1%nat
      else S (attempts_made st rest)
  end.

(** An answer that reports an error: status 400, 405 or 500 with an
    [ErrorResponse] as body. *)
Definition error_answer (w : Handlers.ResponseWriter) : Prop :=
  (Handlers.Code w = 400 \/ Handlers.Code w = 405 \/ Handlers.Code w = 500)
  /\ exists errorCode message,
       Handlers.Written w = Handlers.ErrorResponse errorCode message.



(** A string of ASCII white space. *)
Definition blank (s : string) : Prop :=
  Forall (fun c => Strings.asciiSpace (byte_val c) = true) (chars s).

(** ** Sample data

    Used by the test vectors and by the sample runs of the theorems. *)

(** A clock that starts at a fixed instant and advances by 100ns per
    reading, and a random source following a fixed linear sequence. *)
Definition sample_env : Env :=
  mkEnv (fun n => 1700000000000000000 + 100 * Z.of_nat n) 0
        (fun n => 6364136223846793005 * Z.of_nat n + 1442695040888963407) 0.

(** A stand-in for [url.Parse] on the simplest absolute URLs,
    [scheme://host/rest]; it is used for sample runs only. *)
Fixpoint upto (stop : ascii) (s : string) : string * string :=
  match s with
  | EmptyString => ("", "")
  | String c rest =>
      if Ascii.eqb c stop then ("", s)
      else let '(a, b) := upto stop rest in (String c a, b)
  end.

Definition sample_Parse (raw : string) : ParseResult :=
  match upto ":" raw with
  | (scheme, String _ (String "/" (String "/" rest))) =>
      Parsed (mkURL scheme (fst (upto "/" rest)))
  | _ => Parsed (mkURL "" "")
  end.

Definition sample_service : Service := mkService Store.NewStore sample_env.


(** A store that already holds the ten candidates of the target
    [https://example.com/a] under [sample_env]. *)
Definition crowded_store : Store.t :=
  Store.mk (list_to_map
    (map (fun c => (c, "https://taken.example/"))
       ["OZX5MZ"; "NYJ444"; "KNWX23"; "1MK1Z0"; "MN5YJN";
        "JXZXNN"; "OXZ4LY"; "J42Y22"; "Y23LLK"; "13Z0LN"])).

Global Instance error_eq_dec : EqDecision error.
Proof. solve_decision. Defined.

(** * Properties *)

(** ** Test vectors *)

Example md5_empty :
  hex.EncodeToString (md5.Sum "") = "d41d8cd98f00b204e9800998ecf8427e"%string.
Proof. vm_compute. reflexivity. Qed.

Example md5_abc :
  hex.EncodeToString (md5.Sum "abc") = "900150983cd24fb0d6963f7d28e17f72"%string.
Proof. vm_compute. reflexivity. Qed.

Example md5_two_blocks :
  hex.EncodeToString (md5.Sum
    "12345678901234567890123456789012345678901234567890123456789012345678901234567890")
  = "57edf4a22be3c955ac49da2e2107b67a"%string.
Proof. vm_compute. reflexivity. Qed.

Example md5_padding_edges :
  hex.EncodeToString (md5.Sum (string_of (repeat 97 55)))
    = "ef1772b6dff9a122358552954ad0df65"
  /\ hex.EncodeToString (md5.Sum (string_of (repeat 97 56)))
    = "3b0c8ac703f828b04c6c197006d17218"
  /\ hex.EncodeToString (md5.Sum (string_of (repeat 97 64)))
    = "014842d480b571495a4a0363793f7367".
Proof. vm_compute. repeat split; reflexivity. Qed.

Example TrimSpace_ascii : Strings.TrimSpace "  abc12d
 " = "abc12d".
Proof. reflexivity. Qed.

Example TrimSpace_nbsp :
  Strings.TrimSpace (string_of [0xC2; 0xA0; 97; 0xE2; 0x80; 0x83; 32]) = "a".
Proof. reflexivity. Qed.

Example TrimSpace_inner : Strings.TrimSpace " a b " = "a b".
Proof. reflexivity. Qed.

Example fmt_d_samples :
  fmt.d 0 = "0" /\ fmt.d 14 = "14" /\ fmt.d (-7) = "-7"
  /\ fmt.d 1700000000123456789 = "1700000000123456789".
Proof. repeat split; reflexivity. Qed.

Example Builder_generate_sample :
  fst (Builder.generateShortCode "https://example.com/a" 0 sample_env) = "OZX5MZ".
Proof. vm_compute. reflexivity. Qed.

Example Closure_generate_sample :
  fst (Closure.generateShortCode "https://example.com/a" 0 sample_env) = "Z3ZWKZ".
Proof. vm_compute. reflexivity. Qed.

(** ** Strings as lists of bytes *)

Lemma chars_app (s1 s2 : string) : chars (s1 +:+ s2) = chars s1 ++ chars s2.
Proof. induction s1 as [|c s1 IH]; simpl; [reflexivity | by rewrite IH]. Qed.

Lemma chars_length (s : string) : length (chars s) = String.length s.
Proof. induction s as [|c s IH]; simpl; [reflexivity | by rewrite IH]. Qed.

Lemma chars_index (s : string) (i : nat) : index s i = chars s !! i.
Proof.
  unfold index. revert i.
  induction s as [|c s IH]; intros [|i]; simpl; try reflexivity. apply IH.
Qed.

Lemma chars_inj (s1 s2 : string) : chars s1 = chars s2 -> s1 = s2.
Proof.
  intros H. rewrite <- (string_of_list_ascii_of_string s1),
    <- (string_of_list_ascii_of_string s2). by rewrite H.
Qed.

Lemma string_of_list_length (l : list ascii) :
  String.length (string_of_list_ascii l) = length l.
Proof. by rewrite <- chars_length, list_ascii_of_string_of_list_ascii. Qed.

Lemma byte_val_range (c : ascii) : 0 <= byte_val c < 256.
Proof.
  unfold byte_val. pose proof (N_ascii_bounded c). lia.
Qed.

(** ** The alphabet *)

Lemma ValidChars_total (z : Z) :
  exists c, index ValidChars (Z.to_nat (z mod 62)) = Some c /\ c ∈ alphabet.
Proof.
  assert (Hlt : (Z.to_nat (z mod 62) < 62)%nat)
    by (pose proof (Z.mod_pos_bound z 62); lia).
  rewrite chars_index. fold alphabet.
  destruct (alphabet !! Z.to_nat (z mod 62)) as [c|] eqn:E.
  - exists c. split; [reflexivity | by eapply list_elem_of_lookup_2].
  - apply lookup_ge_None in E. change (length alphabet) with 62%nat in E. lia.
Qed.

Lemma symbol_lookup (c : ascii) :
  index ValidChars (Z.to_nat (byte_val c mod 62)) = Some (symbol c).
Proof.
  destruct (ValidChars_total (byte_val c)) as (x & Hx & _).
  unfold symbol, ValidChars_at, at_.
  change (Z.of_nat (String.length ValidChars)) with 62. by rewrite Hx.
Qed.


Lemma hex_symbols_alphabet (c : ascii) : c ∈ hex_symbols -> c ∈ alphabet.
Proof.
  intros H. vm_compute in H.
  repeat (apply elem_of_cons in H as [->|H];
          [vm_compute;
           repeat first [apply list_elem_of_here | apply list_elem_of_further] |]).
  by apply elem_of_nil in H.
Qed.

(** ** The hash string *)

Ltac by_listing :=
  match goal with |- ?P => apply (bool_decide_eq_true_1 P) end;
  vm_compute; reflexivity.

Lemma hex_digit_nibbles (c : ascii) :
  hex.digit (Z.shiftr (byte_val c) 4) ∈ hex_digits
  /\ hex.digit (Z.land (byte_val c) 15) ∈ hex_digits.
Proof. destruct c as [[] [] [] [] [] [] [] []]; split; by_listing. Qed.

Lemma hex_chars (src : string) :
  Forall (fun c => c ∈ hex_digits) (chars (hex.EncodeToString src)).
Proof.
  induction src as [|c src IH];
    cbn [hex.EncodeToString list_ascii_of_string]; [constructor |].
  destruct (hex_digit_nibbles c) as [Hhi Hlo].
  apply Forall_cons; split; [exact Hhi |].
  apply Forall_cons; split; [exact Hlo | exact IH].
Qed.

Lemma hex_length (src : string) :
  String.length (hex.EncodeToString src) = (2 * String.length src)%nat.
Proof. induction src as [|c src IH]; simpl; [reflexivity | rewrite IH; lia]. Qed.

Lemma md5_Sum_length (data : string) : String.length (md5.Sum data) = md5.Size.
Proof.
  unfold md5.Sum, string_of. rewrite string_of_list_length, length_map.
  generalize (fold_left md5.block
    (md5.groups (length (md5.pad (bytes_of data))) 64 (md5.pad (bytes_of data)))
    md5.init).
  intros st. unfold md5.digest. rewrite !length_app. reflexivity.
Qed.

Lemma hash_length (data : string) :
  String.length (hex.EncodeToString (md5.Sum data)) = 32%nat.
Proof. rewrite hex_length, md5_Sum_length. reflexivity. Qed.

Lemma symbol_of_hex_digit (c : ascii) : c ∈ hex_digits -> symbol c ∈ hex_symbols.
Proof.
  intros H. vm_compute in H.
  repeat (apply elem_of_cons in H as [->|H]; [by_listing |]).
  by apply elem_of_nil in H.
Qed.

Lemma code_of_hash_length (hash : string) :
  (ShortCodeLength <= String.length hash)%nat ->
  String.length (code_of_hash hash) = ShortCodeLength.
Proof.
  intros H. unfold code_of_hash.
  rewrite string_of_list_length, length_map, length_take, chars_length. lia.
Qed.

Lemma code_of_hash_symbols (hash : string) :
  Forall (fun c => c ∈ hex_digits) (chars hash) ->
  Forall (fun c => c ∈ hex_symbols) (chars (code_of_hash hash)).
Proof.
  intros H. unfold code_of_hash. rewrite list_ascii_of_string_of_list_ascii.
  apply Forall_map, Forall_take. eapply Forall_impl; [exact H |].
  intros c Hc. by apply symbol_of_hex_digit.
Qed.

Lemma chars_WriteByte (result : string) (c : ascii) :
  chars (WriteByte result c) = chars result ++ [c].
Proof. unfold WriteByte. by rewrite chars_app. Qed.

Lemma fromHash_chars (hash : string) (n : nat) (result : string) :
  chars (Builder.fromHash hash n result)
  = chars result ++ map symbol (take (n - String.length result) (chars hash)).
Proof.
  revert result. induction hash as [|c hash IH]; intros result;
    cbn [Builder.fromHash list_ascii_of_string].
  - rewrite take_nil. cbn [map]. by rewrite app_nil_r.
  - fold (symbol c). destruct (String.length result <? n)%nat eqn:E.
    + apply Nat.ltb_lt in E. rewrite IH, chars_WriteByte.
      assert (Hlen : String.length (WriteByte result (symbol c))
                     = S (String.length result)).
      { rewrite <- !chars_length, chars_WriteByte, length_app. simpl. lia. }
      rewrite Hlen.
      replace (n - String.length result)%nat
        with (S (n - S (String.length result))) by lia.
      cbn [take map]. by rewrite <- app_assoc.
    + apply Nat.ltb_ge in E.
      replace (n - String.length result)%nat with 0%nat by lia.
      cbn [take map]. by rewrite app_nil_r.
Qed.

(** With a hash of at least [length] characters the second loop of
    [extractValidChars] does not run and no random value is drawn. *)
Lemma extractValidChars_enough (hash : string) (n : nat) (e : Env) :
  (n <= String.length hash)%nat ->
  Builder.extractValidChars hash n e
  = (string_of_list_ascii (map symbol (take n (chars hash))), e).
Proof.
  intros H. unfold Builder.extractValidChars.
  assert (Hc : Builder.fromHash hash n ""
               = string_of_list_ascii (map symbol (take n (chars hash)))).
  { apply chars_inj. rewrite fromHash_chars, list_ascii_of_string_of_list_ascii.
    simpl. by rewrite Nat.sub_0_r. }
  rewrite Hc, string_of_list_length, length_map, length_take, chars_length.
  replace (n - n `min` String.length hash)%nat with 0%nat by lia.
  reflexivity.
Qed.

Lemma Builder_generateShortCode_code (longURL : string) (attempt : Z) (e : Env) :
  fst (Builder.generateShortCode longURL attempt e)
  = code_of_hash (hex.EncodeToString (md5.Sum (Builder_input longURL attempt e))).
Proof.
  unfold Builder.generateShortCode, Builder_input, UnixNano, Int63.
  cbv beta iota zeta.
  rewrite extractValidChars_enough; [reflexivity |].
  rewrite hash_length. unfold ShortCodeLength. lia.
Qed.

Lemma Closure_generateShortCode_code (longURL : string) (attempt : Z) (e : Env) :
  fst (Closure.generateShortCode longURL attempt e)
  = code_of_hash (hex.EncodeToString (md5.Sum (Closure_input longURL attempt e))).
Proof.
  unfold Closure.generateShortCode, Closure.createEntryGenerator, Closure_input,
    UnixNano, Int63.
  cbv beta iota zeta. cbn [fst snd]. unfold code_of_hash.
  (* the digest has a fixed number of bytes, so both sides reduce to the
     same six symbols *)
  reflexivity.
Qed.

(** ** The store *)

Lemma Exists_false (code : string) (st : Store.t) :
  fst (Store.Exists code st) = false <-> Store.urls st !! code = None.
Proof.
  unfold Store.Exists. cbn [fst].
  destruct (Store.urls st !! code); split; congruence.
Qed.

Lemma Exists_true (code : string) (st : Store.t) :
  fst (Store.Exists code st) = true <-> is_Some (Store.urls st !! code).
Proof.
  unfold Store.Exists. cbn [fst].
  destruct (Store.urls st !! code); split;
    [eauto | reflexivity | congruence | intros [? ?]; congruence].
Qed.

Lemma Exists_state (code : string) (st : Store.t) :
  snd (Store.Exists code st) = st.
Proof. reflexivity. Qed.

(** ** The retry loop *)

Section SharedFacts.

Variable validateURL : string -> option error.
Variable generateShortCode : string -> Z -> Env -> string * Env.

Local Abbreviation retry' := (retry generateShortCode).
Local Abbreviation candidates' := (candidates generateShortCode).

Lemma candidate_tier (longURL : string) (attempt : Z) (e : Env) :
  0 <= attempt ->
  candidate generateShortCode longURL attempt e
  = let '((input, salt), e1) := tier_input longURL attempt e in
    generateShortCode input salt e1.
Proof.
  intros H. unfold candidate, tier_input.
  destruct (attempt <? 3) eqn:E3.
  - apply Z.ltb_lt in E3.
    replace ((0 <=? attempt) && (attempt <=? 2)) with true; [reflexivity |].
    symmetry. apply andb_true_iff. split; apply Z.leb_le; lia.
  - apply Z.ltb_ge in E3.
    replace ((0 <=? attempt) && (attempt <=? 2)) with false
      by (symmetry; apply andb_false_iff; right; apply Z.leb_gt; lia).
    destruct (attempt <? 7) eqn:E7.
    + apply Z.ltb_lt in E7.
      replace ((3 <=? attempt) && (attempt <=? 6)) with true; [reflexivity |].
      symmetry. apply andb_true_iff. split; apply Z.leb_le; lia.
    + apply Z.ltb_ge in E7.
      replace ((3 <=? attempt) && (attempt <=? 6)) with false
        by (symmetry; apply andb_false_iff; right; apply Z.leb_gt; lia).
      destruct (UnixNano e). reflexivity.
Qed.

Lemma candidates_tier (n : nat) (longURL : string) (attempt : Z) (e : Env) :
  0 <= attempt ->
  candidates' n longURL attempt e
  = tier_candidates generateShortCode (countFrom attempt n) longURL e.
Proof.
  revert attempt e. induction n as [|n IH]; intros attempt e H;
    [reflexivity |].
  cbn [candidates countFrom tier_candidates].
  rewrite candidate_tier by exact H.
  destruct (tier_input longURL attempt e) as [[input salt] e1].
  destruct (generateShortCode input salt e1) as [code e2].
  rewrite IH by lia. reflexivity.
Qed.

(** The loop never writes to the store. *)
Lemma retry_store (n : nat) (longURL : string) (attempt : Z) (s : Service) :
  store (snd (retry' n longURL attempt s)) = store s.
Proof.
  revert attempt s. induction n as [|n IH]; intros attempt s;
    [reflexivity |].
  cbn [retry]. destruct (candidate _ _ _ _) as [shortCode e1].
  rewrite (surjective_pairing (Store.Exists shortCode (store s))).
  rewrite Exists_state.
  destruct (fst (Store.Exists shortCode (store s))); cbn [negb].
  - rewrite IH. reflexivity.
  - reflexivity.
Qed.

(** It returns the first derived candidate that is absent. *)
Lemma retry_first_absent (n : nat) (longURL : string) (attempt : Z) (s : Service) :
  fst (retry' n longURL attempt s)
  = first_absent (store s) (candidates' n longURL attempt (env s)).
Proof.
  revert attempt s. induction n as [|n IH]; intros attempt s;
    [reflexivity |].
  cbn [retry candidates]. destruct (candidate _ _ _ _) as [shortCode e1].
  rewrite (surjective_pairing (Store.Exists shortCode (store s))).
  rewrite Exists_state.
  unfold first_absent. cbn [find].
  destruct (fst (Store.Exists shortCode (store s))); cbn [negb].
  - rewrite IH. reflexivity.
  - reflexivity.
Qed.

Lemma first_absent_cases (st : Store.t) (cands : list string) :
  (exists c, first_absent st cands = (c, None)
             /\ c ∈ cands /\ Store.urls st !! c = None)
  \/ (first_absent st cands = ("", Some ErrMaxRetries)
      /\ Forall (fun c => fst (Store.Exists c st) = true) cands).
Proof.
  unfold first_absent.
  induction cands as [|c cands IH]; cbn [find]; [right; by split |].
  destruct (fst (Store.Exists c st)) eqn:E; cbn [negb].
  - destruct IH as [(c' & H1 & H2 & H3) | [H1 H2]].
    + left. exists c'. repeat split; [exact H1 | by right | exact H3].
    + right. split; [exact H1 |]. by constructor.
  - left. exists c. repeat split; [by left | by apply Exists_false].
Qed.

Lemma first_absent_exhausted (st : Store.t) (cands : list string) :
  Forall (fun c => fst (Store.Exists c st) = true) cands ->
  first_absent st cands = ("", Some ErrMaxRetries).
Proof.
  intros H. unfold first_absent.
  induction H as [|c cands Hc _ IH]; [reflexivity |].
  cbn [find]. rewrite Hc. exact IH.
Qed.

(** What a call of [ShortenURL] does once the target is accepted. *)
Lemma ShortenURL_accepted (longURL : string) (s : Service) :
  validateURL longURL = None ->
  let r := ShortenURL validateURL generateShortCode longURL s in
  (exists code,
      fst r = (code, None)
      /\ code ∈ candidates' MaxRetries longURL 0 (env s)
      /\ Store.urls (store s) !! code = None
      /\ Store.urls (store (snd r)) = <[code := longURL]> (Store.urls (store s)))
  \/ (fst r = ("", Some ErrMaxRetries) /\ store (snd r) = store s
      /\ Forall (fun c => fst (Store.Exists c (store s)) = true)
                (candidates' MaxRetries longURL 0 (env s))).
Proof.
  intros Hv r. subst r. unfold ShortenURL, generateUniqueShortCode. rewrite Hv.
  pose proof (retry_store MaxRetries longURL 0 s) as Hst.
  pose proof (retry_first_absent MaxRetries longURL 0 s) as Hfa.
  destruct (retry' MaxRetries longURL 0 s) as [[shortCode err] s1].
  cbn [fst snd] in Hst, Hfa.
  destruct (first_absent_cases (store s)
              (candidates' MaxRetries longURL 0 (env s)))
    as [(c & H1 & H2 & H3) | [H1 H2]]; rewrite H1 in Hfa; inversion Hfa; subst.
  - left. exists c. cbn [Store.Save fst snd store]. rewrite Hst. by repeat split.
  - right. cbn [fst snd]. by repeat split.
Qed.

Lemma ShortenURL_rejected (longURL : string) (s : Service) (err : error) :
  validateURL longURL = Some err ->
  ShortenURL validateURL generateShortCode longURL s = (("", Some err), s).
Proof. intros Hv. unfold ShortenURL. by rewrite Hv. Qed.

End SharedFacts.

(** ** Reading the store *)

(** C7.  For every code and every store: [Get] reports [found = false]
    exactly when the code is absent, and then returns the empty string;
    [Exists] returns the flag of [Get]; and [Get], [Exists] and [Count]
    leave the store as they found it. *)
Theorem store_reads_are_pure (code : string) (st : Store.t) :
  (snd (fst (Store.Get code st)) = false <-> Store.urls st !! code = None)
  /\ (fst (Store.Get code st) = ("", false) <-> Store.urls st !! code = None)
  /\ fst (Store.Exists code st) = snd (fst (Store.Get code st))
  /\ snd (Store.Get code st) = st
  /\ snd (Store.Exists code st) = st
  /\ snd (Store.Count st) = st.
Proof.
  unfold Store.Get, Store.Exists, Store.Count. cbn [fst snd].
  destruct (Store.urls st !! code) as [longURL|];
    cbn [fst snd]; repeat split; intros; congruence.
Qed.

(** ** Resolving a code *)

Lemma GetLongURL_unfold (shortCode : string) (s : Service) :
  GetLongURL shortCode s
  = (if decide (Strings.TrimSpace shortCode = "") then ("", Some ErrEmptyURL)
     else match Store.urls (store s) !! Strings.TrimSpace shortCode with
          | None => ("", Some ErrURLNotFound)
          | Some longURL => (longURL, None)
          end,
     s).
Proof.
  unfold GetLongURL, Store.Get. cbv beta iota zeta. destruct s as [st e].
  cbn [store env].
  destruct (decide (Strings.TrimSpace shortCode = "")); [reflexivity |].
  destruct (Store.urls st !! Strings.TrimSpace shortCode); reflexivity.
Qed.

(** C6.  [GetLongURL] trims the code; an empty result gives
    [ErrEmptyURL], which differs from [ErrURLNotFound]; otherwise the
    trimmed code is looked up, absence gives [ErrURLNotFound] and
    presence the stored target.  The inputs [""] and ["   "] give
    [ErrEmptyURL].  The service is left unchanged. *)
Theorem GetLongURL_cases (shortCode : string) (s : Service) :
  fst (GetLongURL shortCode s)
  = (if decide (Strings.TrimSpace shortCode = "") then ("", Some ErrEmptyURL)
     else match Store.urls (store s) !! Strings.TrimSpace shortCode with
          | None => ("", Some ErrURLNotFound)
          | Some longURL => (longURL, None)
          end)
  /\ (snd (fst (GetLongURL shortCode s)) = Some ErrURLNotFound
      <-> Strings.TrimSpace shortCode <> ""
          /\ Store.urls (store s) !! Strings.TrimSpace shortCode = None)
  /\ snd (GetLongURL shortCode s) = s
  /\ fst (GetLongURL "" s) = ("", Some ErrEmptyURL)
  /\ fst (GetLongURL "   " s) = ("", Some ErrEmptyURL)
  /\ ErrEmptyURL <> ErrURLNotFound.
Proof.
  rewrite !GetLongURL_unfold. cbn [fst snd].
  split; [reflexivity |]. split; [| by repeat split].
  destruct (decide (Strings.TrimSpace shortCode = "")) as [Ht|Ht]; cbn [snd].
  - split; [discriminate | by intros [? _]].
  - destruct (Store.urls (store s) !! Strings.TrimSpace shortCode);
      cbn [snd]; split; try done. by intros [_ ?].
Qed.

(** ** The escalation of the retry loop *)

(** C5.  The loop makes at most the attempts [0 .. 9]; attempt [a]
    hashes [(target, a)] for [a] in [0..2], [(target, 2a)] for [a] in
    [3..6] and [(target ++ "_" ++ timestamp, a)] for [a] in [7..9],
    where the timestamp is a fresh reading of the clock; the result is
    the first of these candidates that [Exists] reports absent, or
    [ErrMaxRetries] when there is none; the store is not written. *)
Theorem retry_loop_escalation
    (generateShortCode : string -> Z -> Env -> string * Env)
    (longURL : string) (s : Service) :
  fst (generateUniqueShortCode generateShortCode longURL s)
  = first_absent (store s)
      (tier_candidates generateShortCode [0; 1; 2; 3; 4; 5; 6; 7; 8; 9]
         longURL (env s))
  /\ store (snd (generateUniqueShortCode generateShortCode longURL s)) = store s.
Proof.
  unfold generateUniqueShortCode. split.
  - rewrite retry_first_absent, candidates_tier by lia. reflexivity.
  - apply retry_store.
Qed.

(** ** Exhaustion *)

(** C3.  If each of the [MaxRetries = 10] candidates derived for an
    accepted target is already in the store, [ShortenURL] returns the
    empty code with [ErrMaxRetries], and the store, hence its size, is
    what it was. *)
Theorem exhaustion_leaves_store
    (validateURL : string -> option error)
    (generateShortCode : string -> Z -> Env -> string * Env)
    (longURL : string) (s : Service) :
  validateURL longURL = None ->
  Forall (fun c => fst (Store.Exists c (store s)) = true)
         (candidates generateShortCode MaxRetries longURL 0 (env s)) ->
  let r := ShortenURL validateURL generateShortCode longURL s in
  fst r = ("", Some ErrMaxRetries)
  /\ store (snd r) = store s
  /\ fst (Store.Count (store (snd r))) = fst (Store.Count (store s))
  /\ fst (generateUniqueShortCode generateShortCode longURL s)
     = ("", Some ErrMaxRetries).
Proof.
  intros Hv Hall r.
  assert (Hloop : fst (generateUniqueShortCode generateShortCode longURL s)
                  = ("", Some ErrMaxRetries)).
  { unfold generateUniqueShortCode.
    rewrite retry_first_absent. by apply first_absent_exhausted. }
  destruct (ShortenURL_accepted validateURL generateShortCode longURL s Hv)
    as [(code & H1 & H2 & H3 & H4) | (H1 & H2 & H3)]; fold r in H1 |- *.
  - exfalso. apply (proj1 (Forall_forall _ _) Hall) in H2.
    apply Exists_true in H2 as [? ?]. congruence.
  - fold r in H2. rewrite H2. by repeat split.
Qed.

(** ** Codes and white space *)

Lemma alphabet_range (c : ascii) : c ∈ alphabet -> 48 <= byte_val c < 123.
Proof.
  intros H. vm_compute in H.
  repeat (apply elem_of_cons in H as [->|H]; [vm_compute; split; congruence |]).
  by apply elem_of_nil in H.
Qed.

Ltac eqb_false b :=
  repeat match goal with
  | |- context [b =? ?k] =>
      replace (b =? k) with false by (symmetry; apply Z.eqb_neq; lia)
  end.

Lemma not_space (b x y : Z) :
  48 <= b < 123 ->
  Strings.asciiSpace b = false
  /\ Strings.space2 b x = false /\ Strings.space3 b x y = false
  /\ Strings.space2 x b = false /\ Strings.space3 x y b = false.
Proof.
  intros H. unfold Strings.asciiSpace, Strings.space2, Strings.space3.
  eqb_false b.
  replace (128 <=? b) with false by (symmetry; apply Z.leb_gt; lia).
  rewrite ?andb_false_l, ?andb_false_r, ?orb_false_l, ?orb_false_r.
  by repeat split.
Qed.

Lemma trimLeft_head (c : ascii) (l : list ascii) :
  c ∈ alphabet -> Strings.trimLeft (c :: l) = c :: l.
Proof.
  intros H%alphabet_range. cbn [Strings.trimLeft].
  destruct (not_space (byte_val c) 0 0 H) as (-> & _).
  destruct l as [|c1 [|c2 l]]; try reflexivity.
  - by destruct (not_space (byte_val c) (byte_val c1) 0 H) as (_ & -> & _).
  - by destruct (not_space (byte_val c) (byte_val c1) (byte_val c2) H)
      as (_ & -> & -> & _).
Qed.

Lemma trimLeftRev_head (c : ascii) (l : list ascii) :
  c ∈ alphabet -> Strings.trimLeftRev (c :: l) = c :: l.
Proof.
  intros H%alphabet_range. cbn [Strings.trimLeftRev].
  destruct (not_space (byte_val c) 0 0 H) as (-> & _).
  destruct l as [|c1 [|c2 l]]; try reflexivity.
  - by destruct (not_space (byte_val c) (byte_val c1) 0 H) as (_ & _ & _ & -> & _).
  - by destruct (not_space (byte_val c) (byte_val c2) (byte_val c1) H)
      as (_ & _ & _ & Ha & Hb);
      destruct (not_space (byte_val c) (byte_val c1) 0 H) as (_ & _ & _ & -> & _);
      rewrite Hb.
Qed.

(** A string over the alphabet has no white space to trim. *)
Lemma TrimSpace_alphabet (code : string) :
  Forall (fun c => c ∈ alphabet) (chars code) -> Strings.TrimSpace code = code.
Proof.
  intros H. unfold Strings.TrimSpace, Strings.trimRight.
  assert (Hl : Strings.trimLeft (chars code) = chars code).
  { destruct H as [|c l Hc _]; [reflexivity | by apply trimLeft_head]. }
  rewrite Hl.
  assert (Hr : Strings.trimLeftRev (rev (chars code)) = rev (chars code)).
  { apply Forall_rev in H.
    destruct H as [|c l Hc _]; [reflexivity | by apply trimLeftRev_head]. }
  rewrite Hr, rev_involutive. apply string_of_list_ascii_of_string.
Qed.

(** ** The two revisions *)

Lemma rev_generateShortCode_code (rev : Revision) (longURL : string)
    (attempt : Z) (e : Env) :
  fst (rev_generateShortCode rev longURL attempt e)
  = code_of_hash (hex.EncodeToString (md5.Sum (rev_input rev longURL attempt e))).
Proof.
  destruct rev; [apply Builder_generateShortCode_code
                | apply Closure_generateShortCode_code].
Qed.

Lemma rev_generateShortCode_shape (rev : Revision) (longURL : string)
    (attempt : Z) (e : Env) :
  String.length (fst (rev_generateShortCode rev longURL attempt e)) = ShortCodeLength
  /\ Forall (fun c => c ∈ hex_symbols)
            (chars (fst (rev_generateShortCode rev longURL attempt e))).
Proof.
  rewrite rev_generateShortCode_code. split.
  - apply code_of_hash_length. rewrite hash_length. unfold ShortCodeLength. lia.
  - apply code_of_hash_symbols, hex_chars.
Qed.

(** Every candidate of the loop is an output of [generateShortCode]. *)
Lemma candidate_generated
    (generateShortCode : string -> Z -> Env -> string * Env)
    (longURL : string) (attempt : Z) (e : Env) :
  exists input salt e',
    candidate generateShortCode longURL attempt e
    = generateShortCode input salt e'.
Proof.
  unfold candidate.
  destruct (attempt <? 3); [by eauto |].
  destruct (attempt <? 7); [by eauto |].
  destruct (UnixNano e) as [now e1]. by eauto.
Qed.

Lemma candidates_generated
    (generateShortCode : string -> Z -> Env -> string * Env)
    (n : nat) (longURL : string) (attempt : Z) (e : Env) (c : string) :
  c ∈ candidates generateShortCode n longURL attempt e ->
  exists input salt e', c = fst (generateShortCode input salt e').
Proof.
  revert attempt e. induction n as [|n IH]; intros attempt e;
    cbn [candidates]; [by intros ?%elem_of_nil |].
  destruct (candidate_generated generateShortCode longURL attempt e)
    as (input & salt & e' & Hc).
  destruct (candidate generateShortCode longURL attempt e) as [shortCode e1].
  intros [->|H]%elem_of_cons.
  - exists input, salt, e'. by rewrite <- Hc.
  - by eapply IH.
Qed.

(** ** The shape of a code *)

(** C10.  Every character of every code that [generateShortCode]
    produces, and so of every candidate of the retry loop, is one of the
    16 symbols [J K L M N O W X Y Z 0 1 2 3 4 5]: the digest is written
    in hexadecimal before it is indexed, and these are the symbols that
    the digits [0..9] and [a..f] select.  Both revisions. *)
Theorem candidates_use_sixteen_symbols (rev : Revision) (longURL : string)
    (attempt : Z) (e : Env) :
  Forall (fun c => c ∈ hex_symbols)
         (chars (fst (rev_generateShortCode rev longURL attempt e)))
  /\ Forall (fun c => c ∈ hex_symbols)
            (chars (fst (candidate (rev_generateShortCode rev) longURL attempt e)))
  /\ map symbol hex_digits = chars "WXYZ012345JKLMNO"
  /\ length hex_symbols = 16%nat
  /\ Forall (fun c => c ∈ alphabet) hex_symbols.
Proof.
  split; [apply rev_generateShortCode_shape |].
  split; [| split; [reflexivity | split; [reflexivity |]]].
  - destruct (candidate_generated (rev_generateShortCode rev) longURL attempt e)
      as (input & salt & e' & ->).
    apply rev_generateShortCode_shape.
  - apply Forall_forall. intros c Hc. by apply hex_symbols_alphabet.
Qed.

(** C2 as worded fails: for the target [https://example.com/a] at
    attempt 0 the digest starts with the bytes [f3 19 d3 82 d6 5c], which
    would give [5zzgCE]; the code is [OZX5MZ]. *)
Lemma code_is_not_digest_code :
  let input := Builder_input "https://example.com/a" 0 sample_env in
  hex.EncodeToString (md5.Sum input) = "f319d382d65cac37d51a112f11c3b423"
  /\ digest_code (md5.Sum input) = "5zzgCE"
  /\ fst (Builder.generateShortCode "https://example.com/a" 0 sample_env) = "OZX5MZ"
  /\ fst (Builder.generateShortCode "https://example.com/a" 0 sample_env)
     <> digest_code (md5.Sum input).
Proof.
  cbv zeta. repeat split; try (vm_compute; reflexivity).
  vm_compute. discriminate.
Qed.

(** C2, amended.  The composite input is hashed to a 16-byte digest, the
    digest is written as 32 lower-case hexadecimal digits, and character
    [i] of the code, for [i < 6], is [ValidChars[h mod 62]] where [h] is
    the character code of the [i]-th hexadecimal digit.  So the code is
    fixed by the first three bytes of the digest: byte [j] gives
    character [2j] from its high nibble and character [2j+1] from its
    low nibble.  Both revisions. *)
Theorem code_from_hex_digits (rev : Revision) (longURL : string)
    (attempt : Z) (e : Env) :
  let digest := md5.Sum (rev_input rev longURL attempt e) in
  let hash := hex.EncodeToString digest in
  let code := fst (rev_generateShortCode rev longURL attempt e) in
  String.length digest = 16%nat
  /\ String.length hash = 32%nat
  /\ String.length code = ShortCodeLength
  /\ Forall (fun i => exists h c,
                index hash i = Some h
                /\ index ValidChars (Z.to_nat (byte_val h mod 62)) = Some c
                /\ index code i = Some c)
            (seq 0 ShortCodeLength)
  /\ chars code
     = flat_map (fun b => [symbol (hex.digit (Z.shiftr (byte_val b) 4));
                           symbol (hex.digit (Z.land (byte_val b) 15))])
                (take 3 (chars digest)).
Proof.
  intros digest hash code.
  assert (Hcode : code = code_of_hash hash)
    by apply rev_generateShortCode_code.
  assert (Hlen : String.length hash = 32%nat) by apply hash_length.
  split; [apply md5_Sum_length |]. split; [exact Hlen |].
  split; [apply rev_generateShortCode_shape |]. split.
  - apply Forall_forall. intros i Hi%elem_of_seq.
    destruct (lookup_lt_is_Some_2 (chars hash) i) as [h Hh];
      [rewrite chars_length, Hlen; unfold ShortCodeLength in Hi; lia |].
    exists h, (symbol h). rewrite !chars_index. split; [exact Hh |].
    split; [rewrite <- chars_index; apply symbol_lookup |].
    rewrite Hcode. unfold code_of_hash.
    rewrite list_ascii_of_string_of_list_ascii, list_lookup_fmap.
    rewrite lookup_take_lt by lia. by rewrite Hh.
  - rewrite Hcode. unfold code_of_hash.
    rewrite list_ascii_of_string_of_list_ascii.
    subst hash digest. generalize (rev_input rev longURL attempt e).
    intros input. reflexivity.
Qed.

(** C4.  A code returned by a successful [ShortenURL] has exactly
    [ShortCodeLength = 6] characters, each of them in [ValidChars].
    Both revisions. *)
Theorem returned_code_shape (rev : Revision) (Parse : string -> ParseResult)
    (longURL : string) (s : Service) (code : string) (s' : Service) :
  ShortenURL (rev_validateURL rev Parse) (rev_generateShortCode rev) longURL s
    = ((code, None), s') ->
  String.length code = 6%nat
  /\ Forall (fun c => c ∈ alphabet) (chars code)
  /\ alphabet = chars "abcdefghijklmnopqrstuvwxyzABCDEFGHIJKLMNOPQRSTUVWXYZ0123456789".
Proof.
  intros Hrun.
  destruct (rev_validateURL rev Parse longURL) as [err|] eqn:Hv.
  { rewrite (ShortenURL_rejected _ _ _ _ _ Hv) in Hrun. discriminate. }
  destruct (ShortenURL_accepted _ (rev_generateShortCode rev) longURL s Hv)
    as [(c & H1 & H2 & _) | (H1 & _)]; rewrite Hrun in H1; cbn [fst] in H1;
    [| discriminate].
  inversion H1; subst c.
  apply candidates_generated in H2 as (input & salt & e' & ->).
  destruct (rev_generateShortCode_shape rev input salt e') as [Hlen Hsym].
  split; [exact Hlen |]. split; [| reflexivity].
  eapply Forall_impl; [exact Hsym |]. intros c. apply hex_symbols_alphabet.
Qed.

(** ** What is stored *)

(** C9.  Whatever [validateURL] is, once it has accepted a target the
    rest of [ShortenURL] never looks into the string: the call either
    fails with [ErrMaxRetries], leaving the store alone, or adds one
    entry whose value is the very string it was given. *)
Theorem target_stored_verbatim
    (validateURL : string -> option error)
    (generateShortCode : string -> Z -> Env -> string * Env)
    (longURL : string) (s : Service) :
  validateURL longURL = None ->
  let r := ShortenURL validateURL generateShortCode longURL s in
  (exists code,
      fst r = (code, None)
      /\ Store.urls (store (snd r)) = <[code := longURL]> (Store.urls (store s))
      /\ fst (Store.Get code (store (snd r))) = (longURL, true))
  \/ (fst r = ("", Some ErrMaxRetries) /\ store (snd r) = store s).
Proof.
  intros Hv r.
  destruct (ShortenURL_accepted validateURL generateShortCode longURL s Hv)
    as [(code & H1 & _ & _ & H4) | (H1 & H2 & _)]; fold r in H1 |- *.
  - left. exists code. fold r in H4. repeat split; [exact H1 | exact H4 |].
    unfold Store.Get. cbn [fst]. by rewrite H4, lookup_insert_eq.
  - right. by split.
Qed.

(** ** Sessions *)

Section Sessions.

Variable validateURL : string -> option error.
Variable generateShortCode : string -> Z -> Env -> string * Env.

(** What the uniqueness argument needs of the generator: its codes
    are non-empty strings over the alphabet. *)
Hypothesis generated_clean : forall input salt e,
  fst (generateShortCode input salt e) <> ""
  /\ Forall (fun c => c ∈ alphabet) (chars (fst (generateShortCode input salt e))).

Lemma session_invariant (targets : list string) (s : Service) :
  all_generated (fst (session validateURL generateShortCode targets s)) ->
  let log := fst (session validateURL generateShortCode targets s) in
  let s' := snd (session validateURL generateShortCode targets s) in
  NoDup (codes log)
  /\ Forall (fun c => Store.urls (store s) !! c = None) (codes log)
  /\ Store.urls (store s) ⊆ Store.urls (store s')
  /\ map snd log = map (fun target => (target, None)) targets
  /\ map (fun c => Store.urls (store s') !! c) (codes log) = map Some targets.
Proof.
  revert s. induction targets as [|target rest IH]; intros s.
  { intros _. cbn. repeat split; [constructor | constructor | done]. }
  cbn [session].
  destruct (ShortenURL validateURL generateShortCode target s)
    as [generated s1] eqn:Hgen.
  pose proof (GetLongURL_cases (fst generated) s1) as (Hres & _ & Hsame & _).
  destruct (GetLongURL (fst generated) s1) as [resolved s2].
  cbn [fst snd] in Hres, Hsame. subst s2.
  specialize (IH s1).
  destruct (session validateURL generateShortCode rest s1) as [log s3].
  cbn [fst snd] in IH |- *. intros Hall.
  apply Forall_cons in Hall as [Hok Hall]. cbn [fst snd] in Hok.
  specialize (IH Hall) as (Hnd & Habs & Hsub & Hmap & Hfin).
  destruct (validateURL target) as [err|] eqn:Hv.
  { rewrite (ShortenURL_rejected _ _ _ _ _ Hv) in Hgen.
    inversion Hgen; subst. discriminate. }
  destruct (ShortenURL_accepted validateURL generateShortCode target s Hv)
    as [(code & H1 & H2 & H3 & H4) | (H1 & _)];
    rewrite Hgen in *; cbn [fst snd] in *; [| rewrite H1 in Hok; discriminate].
  rewrite H1 in *. cbn [fst snd] in *.
  apply candidates_generated in H2 as (input & salt & e' & Hcode).
  destruct (generated_clean input salt e') as [Hne Hclean].
  rewrite <- Hcode in Hne, Hclean.
  rewrite (TrimSpace_alphabet _ Hclean) in Hres.
  destruct (decide (code = "")) as [?|_]; [done |].
  rewrite H4, lookup_insert_eq in Hres.
  assert (Hin : Store.urls (store s1) !! code = Some target)
    by (rewrite H4; apply lookup_insert_eq).
  cbn [codes map fst snd]. fold (codes log). repeat split.
  - constructor; [| exact Hnd].
    intros Hmem. apply (proj1 (Forall_forall _ _) Habs) in Hmem. congruence.
  - constructor; [exact H3 |].
    eapply Forall_impl; [exact Habs |]. intros c Hc. cbv beta in Hc.
    rewrite H4 in Hc. by apply lookup_insert_None in Hc as [? _].
  - etrans; [| exact Hsub]. rewrite H4. by apply insert_subseteq.
  - by rewrite Hres, Hmap.
  - rewrite Hfin. f_equal. by eapply lookup_weaken.
Qed.

End Sessions.

(** C1.  In a run of [N] successive [ShortenURL] calls that all succeed,
    the [N] codes are pairwise distinct, and the [GetLongURL] that
    follows each call returns the target of that call; at the end of
    the run each code still maps to its target.  Both revisions. *)
Theorem sequential_codes_unique (rev : Revision) (Parse : string -> ParseResult)
    (targets : list string) (s : Service) :
  let run := session (rev_validateURL rev Parse) (rev_generateShortCode rev)
               targets s in
  all_generated (fst run) ->
  length (fst run) = length targets
  /\ NoDup (codes (fst run))
  /\ map snd (fst run) = map (fun target => (target, None)) targets
  /\ map (fun c => Store.urls (store (snd run)) !! c) (codes (fst run))
     = map Some targets.
Proof.
  intros run Hall.
  destruct (session_invariant (rev_validateURL rev Parse)
              (rev_generateShortCode rev)) with (targets := targets) (s := s)
    as (Hnd & _ & _ & Hmap & Hfin); [| exact Hall |].
  - intros input salt e.
    destruct (rev_generateShortCode_shape rev input salt e) as [Hlen Hsym].
    split.
    + intros Heq. rewrite Heq in Hlen. discriminate.
    + eapply Forall_impl; [exact Hsym |]. intros c. apply hex_symbols_alphabet.
  - fold run in Hnd, Hmap, Hfin. repeat split; try assumption.
    apply (f_equal length) in Hmap. by rewrite !length_map in Hmap.
Qed.

(** ** Sample runs of the theorems above *)

(** Three calls, two of them for the same target: three different
    codes, each resolving to its own target. *)
Lemma sequential_codes_unique_witness :
  let targets := ["https://example.com/a"; "https://example.com/a";
                  "http://example.org/b"] in
  let run := session (rev_validateURL Builder_revision sample_Parse)
               (rev_generateShortCode Builder_revision) targets sample_service in
  all_generated (fst run)
  /\ codes (fst run) = ["OZX5MZ"; "Y41XXL"; "JXLJN4"]
  /\ (length (fst run) = length targets
      /\ NoDup (codes (fst run))
      /\ map snd (fst run) = map (fun target => (target, None)) targets
      /\ map (fun c => Store.urls (store (snd run)) !! c) (codes (fst run))
         = map Some targets).
Proof.
  cbv zeta.
  assert (H : all_generated (fst (session
                (rev_validateURL Builder_revision sample_Parse)
                (rev_generateShortCode Builder_revision)
                ["https://example.com/a"; "https://example.com/a";
                 "http://example.org/b"] sample_service)))
    by (vm_compute; repeat constructor).
  split; [exact H |]. split; [vm_compute; reflexivity |].
  exact (sequential_codes_unique Builder_revision sample_Parse _ _ H).
Defined.

Lemma exhaustion_leaves_store_witness :
  let validate := Builder.validateURL sample_Parse in
  let s := mkService crowded_store sample_env in
  let r := ShortenURL validate Builder.generateShortCode "https://example.com/a" s in
  validate "https://example.com/a" = None
  /\ Forall (fun c => fst (Store.Exists c (store s)) = true)
            (candidates Builder.generateShortCode MaxRetries
               "https://example.com/a" 0 (env s))
  /\ (fst r = ("", Some ErrMaxRetries)
      /\ store (snd r) = store s
      /\ fst (Store.Count (store (snd r))) = fst (Store.Count (store s))
      /\ fst (generateUniqueShortCode Builder.generateShortCode
                "https://example.com/a" s)
         = ("", Some ErrMaxRetries))
  /\ fst (Store.Count (store s)) = 10%nat.
Proof.
  cbv zeta.
  assert (Hv : Builder.validateURL sample_Parse "https://example.com/a" = None)
    by (vm_compute; reflexivity).
  assert (Hall : Forall
            (fun c => fst (Store.Exists c
                             (store (mkService crowded_store sample_env))) = true)
            (candidates Builder.generateShortCode MaxRetries
               "https://example.com/a" 0
               (env (mkService crowded_store sample_env))))
    by (vm_compute; repeat constructor).
  split; [exact Hv |]. split; [exact Hall |].
  split; [| vm_compute; reflexivity].
  exact (exhaustion_leaves_store _ Builder.generateShortCode
           "https://example.com/a" (mkService crowded_store sample_env) Hv Hall).
Defined.

Lemma returned_code_shape_witness :
  let r := ShortenURL (rev_validateURL Closure_revision sample_Parse)
             (rev_generateShortCode Closure_revision)
             "https://example.com/a" sample_service in
  r = (("Z3ZWKZ", None), snd r)
  /\ (String.length "Z3ZWKZ" = 6%nat
      /\ Forall (fun c => c ∈ alphabet) (chars "Z3ZWKZ")
      /\ alphabet
         = chars "abcdefghijklmnopqrstuvwxyzABCDEFGHIJKLMNOPQRSTUVWXYZ0123456789").
Proof.
  cbv zeta.
  assert (H : ShortenURL (rev_validateURL Closure_revision sample_Parse)
                (rev_generateShortCode Closure_revision)
                "https://example.com/a" sample_service
              = (("Z3ZWKZ", None),
                 snd (ShortenURL (rev_validateURL Closure_revision sample_Parse)
                        (rev_generateShortCode Closure_revision)
                        "https://example.com/a" sample_service))).
  { assert (Hfst : fst (ShortenURL (rev_validateURL Closure_revision sample_Parse)
                          (rev_generateShortCode Closure_revision)
                          "https://example.com/a" sample_service)
                   = ("Z3ZWKZ", None)) by (vm_compute; reflexivity).
    destruct (ShortenURL _ _ _ _) as [result s']. cbn [fst snd] in *.
    by rewrite Hfst. }
  split; [exact H |].
  exact (returned_code_shape Closure_revision sample_Parse
           "https://example.com/a" sample_service "Z3ZWKZ" _ H).
Defined.

(** A target with blanks around it passes [Builder.validateURL], which
    validates a trimmed copy, and is stored with its blanks. *)
Lemma target_stored_verbatim_witness :
  let validate := Builder.validateURL sample_Parse in
  let target := "  https://example.com/a  " in
  let r := ShortenURL validate Builder.generateShortCode target sample_service in
  validate target = None
  /\ ((exists code,
          fst r = (code, None)
          /\ Store.urls (store (snd r))
             = <[code := target]> (Store.urls (store sample_service))
          /\ fst (Store.Get code (store (snd r))) = (target, true))
      \/ (fst r = ("", Some ErrMaxRetries) /\ store (snd r) = store sample_service))
  /\ fst (Store.Get "XJ52YW" (store (snd r))) = (target, true).
Proof.
  cbv zeta.
  assert (Hv : Builder.validateURL sample_Parse "  https://example.com/a  " = None)
    by (vm_compute; reflexivity).
  split; [exact Hv |]. split; [| vm_compute; reflexivity].
  exact (target_stored_verbatim _ Builder.generateShortCode
           "  https://example.com/a  " sample_service Hv).
Defined.

(** ** Two calls at once *)

Section InterleavingFacts.

Variable generateShortCode : string -> Z -> Env -> string * Env.

Lemma alone_Returned (n : nat) (longURL : string)
    (result : string * option error) (s : Service) :
  alone generateShortCode n (mkCall longURL (Returned result)) s
  = (mkCall longURL (Returned result), s).
Proof. induction n as [|n IH]; [reflexivity | exact IH]. Qed.

Lemma alone_retry (remaining : nat) (longURL : string) (attempt : Z)
    (s : Service) :
  alone generateShortCode (2 * remaining + 2)
    (mkCall longURL (Deriving remaining attempt)) s
  = (mkCall longURL
       (Returned (fst (complete longURL
                         (retry generateShortCode remaining longURL attempt s)))),
     snd (complete longURL (retry generateShortCode remaining longURL attempt s))).
Proof.
  revert attempt s. induction remaining as [|remaining IH]; intros attempt s.
  { destruct s. reflexivity. }
  replace (2 * S remaining + 2)%nat with (S (S (2 * remaining + 2))) by lia.
  cbn [alone step phase target retry].
  destruct (candidate generateShortCode longURL attempt (env s))
    as [shortCode e1].
  unfold step at 1. cbn [phase target store env].
  rewrite (surjective_pairing (Store.Exists shortCode (store s))), Exists_state.
  destruct (fst (Store.Exists shortCode (store s))); cbn [negb].
  - rewrite IH. reflexivity.
  - replace (2 * remaining + 2)%nat with (S (2 * remaining + 1)) by lia.
    cbn [alone step phase target complete Store.Save store env fst snd].
    apply alone_Returned.
Qed.

(** A call that runs alone is [ShortenURL] after validation. *)
Lemma alone_is_ShortenURL (longURL : string) (s : Service) :
  alone generateShortCode (2 * MaxRetries + 2) (start longURL) s
  = (mkCall longURL
       (Returned (fst (ShortenURL (fun _ => None) generateShortCode longURL s))),
     snd (ShortenURL (fun _ => None) generateShortCode longURL s)).
Proof.
  unfold start. rewrite alone_retry.
  unfold ShortenURL, generateUniqueShortCode, complete.
  destruct (retry generateShortCode MaxRetries longURL 0 s)
    as [[shortCode [err|]] s1]; reflexivity.
Qed.

End InterleavingFacts.

Lemma run_Returned (generateShortCode : string -> Z -> Env -> string * Env)
    (schedule : list Turn) (c1 c2 : Call) (s : Service)
    (r1 r2 : string * option error) :
  phase c1 = Returned r1 -> phase c2 = Returned r2 ->
  run generateShortCode schedule (mkConfig c1 c2 s) = mkConfig c1 c2 s.
Proof.
  intros H1 H2. induction schedule as [|t schedule IH]; [reflexivity |].
  unfold run in *. cbn [fold_left].
  replace (turn generateShortCode (mkConfig c1 c2 s) t) with (mkConfig c1 c2 s);
    [exact IH |].
  destruct t; unfold turn, step; cbn [call1 call2 shared];
    [rewrite H1 | rewrite H2]; reflexivity.
Qed.

(** The probe and the save are not one atomic step, and the save does
    not probe again: a double claim does occur.  Two calls for
    different targets derive the same first candidate [145W40];
    scheduled as derive, probe, derive, probe they have both seen it
    absent while the store is still empty; both then save it and both
    return it.  The store ends with one entry, holding the target of
    the second writer. *)
Lemma double_claim_possible :
  let cfg0 := mkConfig (start "https://example.com/104")
                (start "https://example.org/3479") sample_service in
  let mid := run Builder.generateShortCode [T1; T1; T2; T2] cfg0 in
  let final := run Builder.generateShortCode [T1; T2] mid in
  phase (call1 mid) = Saving "145W40"
  /\ phase (call2 mid) = Saving "145W40"
  /\ store (shared mid) = Store.NewStore
  /\ phase (call1 final) = Returned ("145W40", None)
  /\ phase (call2 final) = Returned ("145W40", None)
  /\ fst (Store.Get "145W40" (store (shared final)))
     = ("https://example.org/3479", true)
  /\ fst (Store.Count (store (shared final))) = 1%nat
  /\ ~ no_double_claim Builder.generateShortCode.
Proof.
  cbv zeta.
  assert (H1 : phase (call1 (run Builder.generateShortCode
                  [T1; T1; T2; T2; T1; T2]
                  (mkConfig (start "https://example.com/104")
                     (start "https://example.org/3479") sample_service)))
               = Returned ("145W40", None)) by (vm_compute; reflexivity).
  assert (H2 : phase (call2 (run Builder.generateShortCode
                  [T1; T1; T2; T2; T1; T2]
                  (mkConfig (start "https://example.com/104")
                     (start "https://example.org/3479") sample_service)))
               = Returned ("145W40", None)) by (vm_compute; reflexivity).
  do 7 (split; [vm_compute; reflexivity |]).
  intros Hnever. exact (Hnever _ _ _ _ _ (conj H1 H2)).
Qed.

(** Once two calls have both seen the same code absent, both save it
    and both return it, in whichever order they are scheduled; the
    store keeps a single entry for the code, and its value is the
    target of the call that saved last. *)
Theorem double_claim_last_writer_wins
    (generateShortCode : string -> Z -> Env -> string * Env)
    (longURL1 longURL2 code : string) (s : Service) (rest : list Turn) :
  let cfg := mkConfig (mkCall longURL1 (Saving code))
               (mkCall longURL2 (Saving code)) s in
  let after12 := run generateShortCode (T1 :: T2 :: rest) cfg in
  let after21 := run generateShortCode (T2 :: T1 :: rest) cfg in
  phase (call1 after12) = Returned (code, None)
  /\ phase (call2 after12) = Returned (code, None)
  /\ phase (call1 after21) = Returned (code, None)
  /\ phase (call2 after21) = Returned (code, None)
  /\ Store.urls (store (shared after12))
     = <[code := longURL2]> (Store.urls (store s))
  /\ Store.urls (store (shared after21))
     = <[code := longURL1]> (Store.urls (store s))
  /\ fst (Store.Get code (store (shared after12))) = (longURL2, true)
  /\ fst (Store.Get code (store (shared after21))) = (longURL1, true).
Proof.
  intros cfg after12 after21.
  assert (E12 : after12
    = mkConfig (mkCall longURL1 (Returned (code, None)))
        (mkCall longURL2 (Returned (code, None)))
        (mkService (Store.mk (<[code := longURL2]>
                      (<[code := longURL1]> (Store.urls (store s))))) (env s))).
  { subst after12 cfg. unfold run. cbn [fold_left].
    change (fold_left (turn generateShortCode) rest ?c)
      with (run generateShortCode rest c).
    cbn [turn step call1 call2 shared phase target Store.Save store env fst snd
         Store.urls].
    by eapply run_Returned. }
  assert (E21 : after21
    = mkConfig (mkCall longURL1 (Returned (code, None)))
        (mkCall longURL2 (Returned (code, None)))
        (mkService (Store.mk (<[code := longURL1]>
                      (<[code := longURL2]> (Store.urls (store s))))) (env s))).
  { subst after21 cfg. unfold run. cbn [fold_left].
    change (fold_left (turn generateShortCode) rest ?c)
      with (run generateShortCode rest c).
    cbn [turn step call1 call2 shared phase target Store.Save store env fst snd
         Store.urls].
    by eapply run_Returned. }
  rewrite E12, E21. unfold Store.Get.
  cbn [call1 call2 shared phase store Store.urls fst].
  rewrite !insert_insert_eq, !lookup_insert_eq. by repeat split.
Qed.

(** * Further properties of the code *)

(** ** store.go *)

(** X1.  After [Save(k, v)], [Get(k)] returns [(v, true)] and
    [Exists(k)] is true, whatever the store held before, and every
    other key reads as it did before the call. *)
Theorem Save_then_read (k v k' : string) (st : Store.t) :
  k' <> k ->
  let st' := snd (Store.Save k v st) in
  fst (Store.Get k st') = (v, true)
  /\ fst (Store.Exists k st') = true
  /\ fst (Store.Get k' st') = fst (Store.Get k' st)
  /\ fst (Store.Exists k' st') = fst (Store.Exists k' st).
Proof.
  intros Hne st'. subst st'.
  unfold Store.Save, Store.Get, Store.Exists. cbn [fst snd Store.urls].
  rewrite lookup_insert_eq, lookup_insert_ne by congruence. by repeat split.
Qed.

Lemma Save_then_read_witness :
  "OZX5MZ" <> "NYJ444"
  /\ (let st' := snd (Store.Save "NYJ444" "https://example.com/new" crowded_store) in
      fst (Store.Get "NYJ444" st') = ("https://example.com/new", true)
      /\ fst (Store.Exists "NYJ444" st') = true
      /\ fst (Store.Get "OZX5MZ" st') = fst (Store.Get "OZX5MZ" crowded_store)
      /\ fst (Store.Exists "OZX5MZ" st') = fst (Store.Exists "OZX5MZ" crowded_store)).
Proof.
  assert (H : "OZX5MZ" <> "NYJ444") by discriminate.
  split; [exact H |].
  exact (Save_then_read "NYJ444" "https://example.com/new" "OZX5MZ"
           crowded_store H).
Defined.

(** X2.  [Save] on a key that is absent makes [Count] one larger; on a
    key that is present it replaces the value and [Count] stays. *)
Theorem Count_after_Save (k v : string) (st : Store.t) :
  fst (Store.Count (snd (Store.Save k v st)))
  = if fst (Store.Exists k st) then fst (Store.Count st)
    else S (fst (Store.Count st)).
Proof.
  unfold Store.Save, Store.Count, Store.Exists. cbn [fst snd Store.urls].
  destruct (Store.urls st !! k) as [old|] eqn:E.
  - rewrite <- (insert_delete_id (Store.urls st) k old E) at 2.
    rewrite <- insert_delete_eq.
    rewrite !map_size_insert_None by apply lookup_delete_eq. reflexivity.
  - by apply map_size_insert_None.
Qed.

(** ** service.go: what a call leaves behind *)

(** X3.  Whenever [ShortenURL] returns an error, the code it returns is
    empty and the store is untouched.  The error is either the one of
    [validateURL], and then nothing at all was consumed, or
    [ErrMaxRetries]. *)
Theorem ShortenURL_failure_is_clean
    (validateURL : string -> option error)
    (generateShortCode : string -> Z -> Env -> string * Env)
    (longURL : string) (s : Service) :
  let r := ShortenURL validateURL generateShortCode longURL s in
  snd (fst r) <> None ->
  fst (fst r) = ""
  /\ store (snd r) = store s
  /\ ((snd (fst r) = validateURL longURL /\ snd r = s)
      \/ (validateURL longURL = None /\ snd (fst r) = Some ErrMaxRetries)).
Proof.
  intros r Hfail.
  destruct (validateURL longURL) as [err|] eqn:Hv.
  - subst r. rewrite (ShortenURL_rejected _ _ _ _ _ Hv) in *.
    cbn [fst snd]. split; [reflexivity |]. split; [reflexivity |]. by left.
  - destruct (ShortenURL_accepted validateURL generateShortCode longURL s Hv)
      as [(code & H1 & _) | (H1 & H2 & _)]; fold r in H1.
    + rewrite H1 in Hfail. by cbn in Hfail.
    + fold r in H2. rewrite H1. cbn [fst snd].
      split; [reflexivity |]. split; [exact H2 |]. by right.
Qed.

Lemma ShortenURL_failure_is_clean_witness :
  let r := ShortenURL (Builder.validateURL sample_Parse)
             Builder.generateShortCode "ftp://example.com/a" sample_service in
  snd (fst r) <> None
  /\ (fst (fst r) = ""
      /\ store (snd r) = store sample_service
      /\ ((snd (fst r) = Builder.validateURL sample_Parse "ftp://example.com/a"
           /\ snd r = sample_service)
          \/ (Builder.validateURL sample_Parse "ftp://example.com/a" = None
              /\ snd (fst r) = Some ErrMaxRetries))).
Proof.
  cbv zeta.
  assert (H : snd (fst (ShortenURL (Builder.validateURL sample_Parse)
                          Builder.generateShortCode "ftp://example.com/a"
                          sample_service)) <> None)
    by (vm_compute; discriminate).
  split; [exact H |].
  exact (ShortenURL_failure_is_clean (Builder.validateURL sample_Parse)
           Builder.generateShortCode "ftp://example.com/a" sample_service H).
Defined.

(** X4.  A successful [ShortenURL] adds exactly one entry, under a key
    that was free: every entry the store had is still there with its
    value, and [Count], which is what [GetStats] reports, grows by
    one. *)
Theorem ShortenURL_success_adds_one
    (validateURL : string -> option error)
    (generateShortCode : string -> Z -> Env -> string * Env)
    (longURL : string) (s : Service) :
  let r := ShortenURL validateURL generateShortCode longURL s in
  snd (fst r) = None ->
  Store.urls (store s) !! fst (fst r) = None
  /\ Store.urls (store (snd r)) = <[fst (fst r) := longURL]> (Store.urls (store s))
  /\ Store.urls (store s) ⊆ Store.urls (store (snd r))
  /\ fst (Store.Count (store (snd r))) = S (fst (Store.Count (store s)))
  /\ fst (GetStats (snd r)) = S (fst (GetStats s))
  /\ snd (GetStats (snd r)) = snd r.
Proof.
  intros r Hok.
  destruct (validateURL longURL) as [err|] eqn:Hv.
  { subst r. rewrite (ShortenURL_rejected _ _ _ _ _ Hv) in Hok. discriminate. }
  destruct (ShortenURL_accepted validateURL generateShortCode longURL s Hv)
    as [(code & H1 & _ & H3 & H4) | (H1 & _)]; fold r in H1;
    [| rewrite H1 in Hok; discriminate].
  fold r in H4. rewrite H1. cbn [fst snd].
  assert (Hsize : size (Store.urls (store (snd r)))
                  = S (size (Store.urls (store s))))
    by (rewrite H4; by apply map_size_insert_None).
  split; [exact H3 |]. split; [exact H4 |].
  split; [rewrite H4; by apply insert_subseteq |].
  unfold GetStats, Store.Count. cbn [fst snd].
  split; [exact Hsize |]. split; [exact Hsize |]. by destruct (snd r).
Qed.

Lemma ShortenURL_success_adds_one_witness :
  let r := ShortenURL (Builder.validateURL sample_Parse)
             Builder.generateShortCode "https://example.com/a"
             (mkService (snd (Store.Save "NYJ444" "https://kept.example/" Store.NewStore))
                sample_env) in
  snd (fst r) = None
  /\ fst (Store.Count (store (snd r))) = 2%nat
  /\ fst (Store.Get "NYJ444" (store (snd r))) = ("https://kept.example/", true).
Proof.
  cbv zeta.
  assert (H : snd (fst (ShortenURL (Builder.validateURL sample_Parse)
             Builder.generateShortCode "https://example.com/a"
             (mkService (snd (Store.Save "NYJ444" "https://kept.example/" Store.NewStore))
                sample_env))) = None) by (vm_compute; reflexivity).
  split; [exact H |].
  destruct (ShortenURL_success_adds_one (Builder.validateURL sample_Parse)
              Builder.generateShortCode "https://example.com/a" _ H)
    as (_ & _ & Hsub & Hcount & _).
  split; [exact Hcount |].
  unfold Store.Get. cbn [fst].
  by rewrite (lookup_weaken _ _ "NYJ444" "https://kept.example/"
                (lookup_insert_eq _ _ _) Hsub).
Defined.

(** X5.  A run of successful [ShortenURL] calls, each followed by a
    [GetLongURL], makes [Count] grow by the number of calls and keeps
    every entry that the store held before the run. *)
Theorem session_adds_one_entry_per_call
    (validateURL : string -> option error)
    (generateShortCode : string -> Z -> Env -> string * Env)
    (targets : list string) (s : Service) :
  let run := session validateURL generateShortCode targets s in
  all_generated (fst run) ->
  fst (Store.Count (store (snd run)))
  = (fst (Store.Count (store s)) + length targets)%nat
  /\ Store.urls (store s) ⊆ Store.urls (store (snd run)).
Proof.
  cbv zeta. revert s. induction targets as [|target rest IH]; intros s.
  { intros _. cbn. split; [lia | done]. }
  cbn [session].
  destruct (ShortenURL validateURL generateShortCode target s)
    as [generated s1] eqn:Hgen.
  pose proof (GetLongURL_unfold (fst generated) s1) as Hres.
  destruct (GetLongURL (fst generated) s1) as [resolved s2].
  apply pair_equal_spec in Hres as [_ ->].
  specialize (IH s1).
  destruct (session validateURL generateShortCode rest s1) as [log s3].
  cbn [fst snd] in IH |- *. intros Hall.
  apply Forall_cons in Hall as [Hok Hall]. cbn [fst snd] in Hok.
  specialize (IH Hall) as [Hcount Hsub].
  destruct (validateURL target) as [err|] eqn:Hv.
  { rewrite (ShortenURL_rejected _ _ _ _ _ Hv) in Hgen.
    inversion Hgen; subst. discriminate. }
  destruct (ShortenURL_accepted validateURL generateShortCode target s Hv)
    as [(code & H1 & _ & H3 & H4) | (H1 & _)];
    rewrite Hgen in *; cbn [fst snd] in *; [| rewrite H1 in Hok; discriminate].
  split.
  - rewrite Hcount. unfold Store.Count. cbn [fst]. rewrite H4.
    rewrite map_size_insert_None by exact H3. cbn [length]. lia.
  - etrans; [| exact Hsub]. rewrite H4. by apply insert_subseteq.
Qed.

Lemma session_adds_one_entry_per_call_witness :
  let s := mkService
             (snd (Store.Save "OZX5MZ" "https://kept.example/" Store.NewStore))
             sample_env in
  let run := session (Builder.validateURL sample_Parse) Builder.generateShortCode
               ["https://example.com/a"; "https://example.com/a";
                "http://example.org/b"] s in
  all_generated (fst run)
  /\ (fst (Store.Count (store (snd run)))
      = (fst (Store.Count (store s)) + 3)%nat
      /\ Store.urls (store s) ⊆ Store.urls (store (snd run)))
  /\ fst (Store.Count (store (snd run))) = 4%nat.
Proof.
  cbv zeta.
  assert (H : all_generated (fst (session (Builder.validateURL sample_Parse)
                Builder.generateShortCode
                ["https://example.com/a"; "https://example.com/a";
                 "http://example.org/b"]
                (mkService
                   (snd (Store.Save "OZX5MZ" "https://kept.example/"
                           Store.NewStore))
                   sample_env))))
    by (vm_compute; repeat constructor).
  split; [exact H |]. split; [| vm_compute; reflexivity].
  exact (session_adds_one_entry_per_call (Builder.validateURL sample_Parse)
           Builder.generateShortCode _ _ H).
Defined.

(** ** service.go: what the generator reads *)

Lemma rev_generateShortCode_env (rev : Revision) (longURL : string)
    (attempt : Z) (e : Env) :
  snd (rev_generateShortCode rev longURL attempt e)
  = mkEnv (clock e) (S (ticks e)) (source e) (S (draws e)).
Proof.
  destruct rev; cbn [rev_generateShortCode].
  - unfold Builder.generateShortCode, UnixNano, Int63. cbv beta iota zeta.
    rewrite extractValidChars_enough; [reflexivity |].
    rewrite hash_length. unfold ShortCodeLength. lia.
  - reflexivity.
Qed.

Lemma rev_candidate_env (rev : Revision) (longURL : string)
    (attempt : Z) (e : Env) :
  snd (candidate (rev_generateShortCode rev) longURL attempt e)
  = mkEnv (clock e) (ticks e + (if attempt <? 7 then 1 else 2))
      (source e) (S (draws e)).
Proof.
  unfold candidate.
  destruct (attempt <? 3) eqn:E3.
  - rewrite rev_generateShortCode_env.
    replace (attempt <? 7) with true by (symmetry; apply Z.ltb_lt; lia).
    f_equal. lia.
  - destruct (attempt <? 7).
    + rewrite rev_generateShortCode_env. f_equal. lia.
    + unfold UnixNano. cbv beta iota zeta. rewrite rev_generateShortCode_env.
      cbn [clock ticks source draws]. f_equal. lia.
Qed.

Lemma retry_readings (rev : Revision) (n : nat) (longURL : string)
    (attempt : Z) (s : Service) :
  0 <= attempt ->
  let e' := env (snd (retry (rev_generateShortCode rev) n longURL attempt s)) in
  let k := attempts_made (store s)
             (candidates (rev_generateShortCode rev) n longURL attempt (env s)) in
  (k <= n)%nat /\ (n = 0 \/ 1 <= k)%nat
  /\ draws e' = (draws (env s) + k)%nat
  /\ ticks e'
     = (ticks (env s) + k
        + Z.to_nat (Z.max 0 (attempt + Z.of_nat k - Z.max attempt 7)))%nat
  /\ clock e' = clock (env s) /\ source e' = source (env s).
Proof.
  revert attempt s. induction n as [|n IH]; intros attempt s Ha.
  { cbn. repeat split; try lia. }
  cbn [retry candidates].
  pose proof (rev_candidate_env rev longURL attempt (env s)) as He1.
  destruct (candidate (rev_generateShortCode rev) longURL attempt (env s))
    as [shortCode e1].
  cbn [snd] in He1. cbn [attempts_made].
  rewrite (surjective_pairing (Store.Exists shortCode (store s))), Exists_state.
  destruct (fst (Store.Exists shortCode (store s))); cbn [fst snd negb].
  - specialize (IH (attempt + 1) (mkService (store s) e1)).
    cbn [store env] in IH. destruct IH as (Hk & Hk1 & Hd & Ht & Hc & Hs); [lia |].
    cbn zeta. rewrite Hd, Ht, Hc, Hs. subst e1.
    cbn [clock ticks source draws] in *.
    destruct (attempt <? 7) eqn:E7;
      [apply Z.ltb_lt in E7 | apply Z.ltb_ge in E7];
      repeat split; first [reflexivity | lia].
  - cbn zeta. cbn [snd env]. subst e1. cbn [clock ticks source draws].
    destruct (attempt <? 7) eqn:E7;
      [apply Z.ltb_lt in E7 | apply Z.ltb_ge in E7];
      repeat split; first [reflexivity | lia].
Qed.

(** X6.  A call of [generateUniqueShortCode] that makes [k] attempts
    ([k] is between 1 and 10) draws [k] values from the random source
    and reads the clock [k] times, plus once more for each attempt
    from the eighth on; so an immediate success costs one value and one
    reading, and exhaustion ten values and thirteen readings.  Both
    revisions. *)
Theorem readings_consumed (rev : Revision) (longURL : string) (s : Service) :
  let e' := env (snd (generateUniqueShortCode (rev_generateShortCode rev)
                        longURL s)) in
  let k := attempts_made (store s)
             (candidates (rev_generateShortCode rev) MaxRetries longURL 0
                (env s)) in
  (1 <= k <= 10)%nat
  /\ draws e' = (draws (env s) + k)%nat
  /\ ticks e' = (ticks (env s) + k + (k - 7))%nat
  /\ clock e' = clock (env s) /\ source e' = source (env s).
Proof.
  intros e' k.
  destruct (retry_readings rev MaxRetries longURL 0 s) as (Hk & Hk1 & Hd & Ht & Hc);
    [lia |].
  fold k in Hk, Hk1, Hd, Ht. unfold generateUniqueShortCode in e'. fold e' in Hd, Ht, Hc.
  unfold MaxRetries in Hk, Hk1.
  repeat split; try lia; try tauto.
Qed.

(** ** service.go: [extractValidChars] on any hash *)







(** ** service.go: validation *)

Lemma scheme_check (u : URL) :
  negb (String.eqb (Scheme u) "http") && negb (String.eqb (Scheme u) "https")
  = false
  <-> Scheme u = "http" \/ Scheme u = "https".
Proof.
  destruct (String.eqb_spec (Scheme u) "http") as [->|H1]; cbn [negb andb].
  - split; [by left | reflexivity].
  - destruct (String.eqb_spec (Scheme u) "https") as [->|H2]; cbn [negb].
    + split; [by right | reflexivity].
    + split; [discriminate | intros [?|?]; congruence].
Qed.

Lemma existsb_false {A} (f : A -> bool) (l : list A) :
  existsb f l = false <-> Forall (fun x => f x = false) l.
Proof.
  induction l as [|x l IH]; cbn [existsb].
  - split; [constructor | reflexivity].
  - rewrite orb_false_iff, IH, Forall_cons. reflexivity.
Qed.

(** X8.  Both revisions accept a target exactly when it is not blank,
    [url.Parse] succeeds on it with scheme [http] or [https] and a
    non-empty host, and, for the revision with [extractValidChars], the
    trimmed target has at least 7 bytes and it is the trimmed target
    that is parsed; for the other revision the raw target is parsed and
    the host contains none of the blocked domains. *)
Theorem validateURL_accepts_exactly (rev : Revision)
    (Parse : string -> ParseResult) (longURL : string) :
  rev_validateURL rev Parse longURL = None
  <-> Strings.TrimSpace longURL <> ""
      /\ exists u,
           Parse (match rev with
                  | Builder_revision => Strings.TrimSpace longURL
                  | Closure_revision => longURL
                  end) = Parsed u
           /\ (Scheme u = "http" \/ Scheme u = "https")
           /\ Host u <> ""
           /\ match rev with
              | Builder_revision =>
                  (7 <= String.length (Strings.TrimSpace longURL))%nat
              | Closure_revision =>
                  Forall (fun b => Strings.Contains (Host u) b = false)
                         Closure.blockedDomains
              end.
Proof.
  destruct rev; cbn [rev_validateURL].
  - unfold Builder.validateURL.
    destruct (decide (longURL = "")) as [->|Hne].
    { split; [discriminate | by intros [? _]]. }
    destruct (decide (Strings.TrimSpace longURL = "")) as [Ht|Ht].
    { split; [discriminate | by intros [? _]]. }
    destruct (String.length (Strings.TrimSpace longURL) <? 7)%nat eqn:Hlen.
    { apply Nat.ltb_lt in Hlen. split; [discriminate |].
      intros (_ & u & _ & _ & _ & ?). lia. }
    apply Nat.ltb_ge in Hlen.
    destruct (Parse (Strings.TrimSpace longURL)) as [u|msg].
    2:{ split; [discriminate | intros (_ & u & ? & _); discriminate]. }
    pose proof (scheme_check u) as Hs.
    destruct (negb (String.eqb (Scheme u) "http")
              && negb (String.eqb (Scheme u) "https")).
    { split; [discriminate |].
      intros (_ & u' & Hu & Hsch & _). inversion Hu; subst u'.
      apply Hs in Hsch. discriminate. }
    destruct (String.eqb_spec (Host u) "") as [Hh|Hh].
    { split; [discriminate |].
      intros (_ & u' & Hu & _ & Hh' & _). inversion Hu; subst u'. done. }
    split; [| reflexivity]. intros _. split; [exact Ht |].
    exists u. repeat split; try assumption. by apply Hs.
  - unfold Closure.validateURL, Closure.validateURLBasics,
      Closure.validateURLFormat, Closure.validateURLSecurity.
    destruct (decide (longURL = "")) as [->|Hne].
    { split; [discriminate | by intros [? _]]. }
    destruct (decide (Strings.TrimSpace longURL = "")) as [Ht|Ht].
    { split; [discriminate | by intros [? _]]. }
    destruct (Parse longURL) as [u|msg].
    2:{ split; [discriminate | intros (_ & u & ? & _); discriminate]. }
    pose proof (scheme_check u) as Hs.
    destruct (negb (String.eqb (Scheme u) "http")
              && negb (String.eqb (Scheme u) "https")).
    { split; [discriminate |].
      intros (_ & u' & Hu & Hsch & _). inversion Hu; subst u'.
      apply Hs in Hsch. discriminate. }
    destruct (String.eqb_spec (Host u) "") as [Hh|Hh].
    { split; [discriminate |].
      intros (_ & u' & Hu & _ & Hh' & _). inversion Hu; subst u'. done. }
    destruct (existsb (Strings.Contains (Host u)) Closure.blockedDomains) eqn:Hb.
    { split; [discriminate |].
      intros (_ & u' & Hu & _ & _ & Hall). inversion Hu; subst u'.
      apply existsb_false in Hall. congruence. }
    split; [| reflexivity]. intros _. split; [exact Ht |].
    exists u. repeat split; try assumption; [by apply Hs |].
    by apply existsb_false.
Qed.

Lemma validateURL_error_shape (rev : Revision)
    (Parse : string -> ParseResult) (longURL : string) (err : error) :
  rev_validateURL rev Parse longURL = Some err ->
  exists Msg, err = ValidationError "long_url" longURL Msg.
Proof.
  intros H.
  destruct rev; cbn [rev_validateURL] in H.
  - unfold Builder.validateURL in H. cbv zeta in H.
    repeat match type of H with
           | (if ?c then _ else _) = _ => destruct c
           | match ?c with _ => _ end = _ => destruct c
           end; inversion H; eauto.
  - unfold Closure.validateURL, Closure.validateURLBasics,
      Closure.validateURLFormat, Closure.validateURLSecurity in H.
    destruct (decide (longURL = "")); cbv beta iota in H;
      [inversion H; by eauto |].
    destruct (decide (Strings.TrimSpace longURL = "")); cbv beta iota in H;
      [inversion H; by eauto |].
    destruct (Parse longURL) as [u|msg]; cbv beta iota in H;
      [| inversion H; by eauto].
    destruct (negb (String.eqb (Scheme u) "http")
              && negb (String.eqb (Scheme u) "https")); cbv beta iota in H;
      [inversion H; by eauto |].
    destruct (String.eqb (Host u) ""); cbv beta iota in H;
      [inversion H; by eauto |].
    destruct (existsb (Strings.Contains (Host u)) Closure.blockedDomains);
      inversion H; by eauto.
Qed.

(** X9.  Every rejection by [validateURL] is a [ValidationError] on the
    field [long_url] that carries the target exactly as it was given;
    the sentinels [ErrEmptyURL] and [ErrInvalidURL] are never returned,
    and the URL that [validateURLSecurity] dereferences is never nil.
    Both revisions. *)
Theorem validateURL_rejects_with_ValidationError (rev : Revision)
    (Parse : string -> ParseResult) (longURL : string) (err : error) :
  rev_validateURL rev Parse longURL = Some err ->
  (exists Msg, err = ValidationError "long_url" longURL Msg)
  /\ err <> ErrEmptyURL /\ err <> ErrInvalidURL
  /\ errors_Is err ErrEmptyURL = false /\ errors_Is err ErrInvalidURL = false.
Proof.
  intros H.
  destruct (validateURL_error_shape rev Parse longURL err H) as [Msg ->].
  split; [by eauto |]. by repeat split.
Qed.

Lemma validateURL_rejects_with_ValidationError_witness :
  rev_validateURL Closure_revision sample_Parse "https://spam.org/offer"
  = Some (ValidationError "long_url" "https://spam.org/offer"
            "dominio bloqueado por seguridad")
  /\ ((exists Msg,
          ValidationError "long_url" "https://spam.org/offer"
            "dominio bloqueado por seguridad"
          = ValidationError "long_url" "https://spam.org/offer" Msg)
      /\ ValidationError "long_url" "https://spam.org/offer"
           "dominio bloqueado por seguridad" <> ErrEmptyURL
      /\ ValidationError "long_url" "https://spam.org/offer"
           "dominio bloqueado por seguridad" <> ErrInvalidURL
      /\ errors_Is (ValidationError "long_url" "https://spam.org/offer"
                      "dominio bloqueado por seguridad") ErrEmptyURL = false
      /\ errors_Is (ValidationError "long_url" "https://spam.org/offer"
                      "dominio bloqueado por seguridad") ErrInvalidURL = false).
Proof.
  assert (H : rev_validateURL Closure_revision sample_Parse
                "https://spam.org/offer"
              = Some (ValidationError "long_url" "https://spam.org/offer"
                        "dominio bloqueado por seguridad"))
    by (vm_compute; reflexivity).
  split; [exact H |].
  exact (validateURL_rejects_with_ValidationError Closure_revision sample_Parse
           "https://spam.org/offer" _ H).
Defined.

(** X10.  An empty or blank target is rejected by [ShortenURL] before
    [url.Parse] is consulted and before anything is read or written:
    the call returns the empty code with a [ValidationError] on the raw
    target, and the service is exactly as it was.  Both revisions. *)
Theorem ShortenURL_rejects_blank (rev : Revision)
    (Parse : string -> ParseResult) (longURL : string) (s : Service) :
  Strings.TrimSpace longURL = "" ->
  ShortenURL (rev_validateURL rev Parse) (rev_generateShortCode rev) longURL s
  = (("", Some (ValidationError "long_url" longURL
                  (if decide (longURL = "") then "no puede estar vacía"
                   else "no puede contener solo espacios"))),
     s).
Proof.
  intros Ht. apply ShortenURL_rejected.
  destruct rev; cbn [rev_validateURL];
    unfold Builder.validateURL, Closure.validateURL, Closure.validateURLBasics;
    destruct (decide (longURL = "")); try reflexivity;
    destruct (decide (Strings.TrimSpace longURL = "")); done.
Qed.

Lemma ShortenURL_rejects_blank_witness :
  Strings.TrimSpace "   " = ""
  /\ ShortenURL (rev_validateURL Builder_revision sample_Parse)
       (rev_generateShortCode Builder_revision) "   " sample_service
     = (("", Some (ValidationError "long_url" "   "
                     (if decide ("   " = "") then "no puede estar vacía"
                      else "no puede contener solo espacios"))),
        sample_service).
Proof.
  assert (H : Strings.TrimSpace "   " = "") by reflexivity.
  split; [exact H |].
  exact (ShortenURL_rejects_blank Builder_revision sample_Parse "   "
           sample_service H).
Defined.

Lemma prefix_app (b post : string) : String.prefix b (b +:+ post) = true.
Proof.
  induction b as [|c b IH].
  - by destruct post.
  - change (String c b +:+ post) with (String c (b +:+ post)).
    cbn [String.prefix]. destruct (ascii_dec c c); [exact IH | done].
Qed.

Lemma Contains_app (pre b post : string) :
  Strings.Contains (pre +:+ b +:+ post) b = true.
Proof.
  induction pre as [|c pre IH].
  - change ("" +:+ b +:+ post) with (b +:+ post).
    destruct (b +:+ post) eqn:E; cbn [Strings.Contains];
      rewrite <- E, prefix_app; reflexivity.
  - change (String c pre +:+ b +:+ post) with (String c (pre +:+ b +:+ post)).
    cbn [Strings.Contains]. rewrite IH. apply orb_true_r.
Qed.

(** X11.  The block list of [validateURLSecurity] is matched as a
    substring of the host: a target whose host contains a blocked
    domain anywhere, even inside a longer name, is rejected. *)
Theorem blocked_domain_anywhere_in_host
    (Parse : string -> ParseResult) (longURL pre blocked post : string)
    (u : URL) :
  blocked ∈ Closure.blockedDomains ->
  Parse longURL = Parsed u ->
  Host u = pre +:+ blocked +:+ post ->
  Closure.validateURLSecurity Parse longURL
  = Some (ValidationError "long_url" longURL "dominio bloqueado por seguridad")
  /\ exists err, Closure.validateURL Parse longURL = Some err.
Proof.
  intros Hin Hp Hh.
  assert (Hb : existsb (Strings.Contains (Host u)) Closure.blockedDomains = true).
  { apply existsb_exists. exists blocked. split.
    - by apply list_elem_of_In.
    - rewrite Hh. apply Contains_app. }
  assert (Hsec : Closure.validateURLSecurity Parse longURL
            = Some (ValidationError "long_url" longURL
                      "dominio bloqueado por seguridad")).
  { unfold Closure.validateURLSecurity. by rewrite Hp, Hb. }
  split; [exact Hsec |].
  unfold Closure.validateURL.
  destruct (Closure.validateURLBasics longURL); [by eauto |].
  destruct (Closure.validateURLFormat Parse longURL); [by eauto |].
  rewrite Hsec. by eauto.
Qed.

Lemma blocked_domain_anywhere_in_host_witness :
  let longURL := "https://notmalware.com.example.org/x" in
  let u := mkURL "https" "notmalware.com.example.org" in
  "malware.com" ∈ Closure.blockedDomains
  /\ sample_Parse longURL = Parsed u
  /\ Host u = "not" +:+ "malware.com" +:+ ".example.org"
  /\ (Closure.validateURLSecurity sample_Parse longURL
      = Some (ValidationError "long_url" longURL "dominio bloqueado por seguridad")
      /\ exists err, Closure.validateURL sample_Parse longURL = Some err).
Proof.
  cbv zeta.
  assert (H1 : "malware.com" ∈ Closure.blockedDomains) by apply list_elem_of_here.
  assert (H2 : sample_Parse "https://notmalware.com.example.org/x"
               = Parsed (mkURL "https" "notmalware.com.example.org"))
    by reflexivity.
  assert (H3 : Host (mkURL "https" "notmalware.com.example.org")
               = "not" +:+ "malware.com" +:+ ".example.org") by reflexivity.
  split; [exact H1 |]. split; [exact H2 |]. split; [exact H3 |].
  exact (blocked_domain_anywhere_in_host sample_Parse _ "not" "malware.com"
           ".example.org" _ H1 H2 H3).
Defined.

(** ** service.go: resolving with blanks around the code *)

Lemma trimLeft_blank (pre l : list ascii) :
  Forall (fun c => Strings.asciiSpace (byte_val c) = true) pre ->
  Strings.trimLeft (pre ++ l) = Strings.trimLeft l.
Proof.
  induction 1 as [|c pre Hc _ IH]; [reflexivity |].
  cbn [app Strings.trimLeft]. by rewrite Hc.
Qed.

Lemma trimLeftRev_blank (pre l : list ascii) :
  Forall (fun c => Strings.asciiSpace (byte_val c) = true) pre ->
  Strings.trimLeftRev (pre ++ l) = Strings.trimLeftRev l.
Proof.
  induction 1 as [|c pre Hc _ IH]; [reflexivity |].
  cbn [app Strings.trimLeftRev]. by rewrite Hc.
Qed.

Lemma TrimSpace_padded (pre code post : string) :
  blank pre -> blank post ->
  Forall (fun c => c ∈ alphabet) (chars code) ->
  Strings.TrimSpace (pre +:+ code +:+ post) = code.
Proof.
  intros Hpre Hpost Hcode. unfold Strings.TrimSpace, Strings.trimRight.
  rewrite !chars_app, trimLeft_blank by exact Hpre.
  destruct (chars code) as [|c l] eqn:E.
  - cbn [app]. rewrite <- (app_nil_r (chars post)), trimLeft_blank by exact Hpost.
    cbn. apply chars_inj. by rewrite E.
  - apply Forall_cons in Hcode as [Hc Hl]. cbn [app].
    rewrite trimLeft_head by exact Hc.
    change (c :: l ++ chars post) with ((c :: l) ++ chars post).
    rewrite rev_app_distr, trimLeftRev_blank by (by apply Forall_rev).
    assert (Hrev : Strings.trimLeftRev (rev (c :: l)) = rev (c :: l)).
    { assert (Hall : Forall (fun c => c ∈ alphabet) (rev (c :: l)))
        by (apply Forall_rev; by constructor).
      destruct (rev (c :: l)) as [|c' l'] eqn:E'; [reflexivity |].
      apply Forall_cons in Hall as [Hc' _]. by apply trimLeftRev_head. }
    rewrite Hrev, rev_involutive, <- E. apply string_of_list_ascii_of_string.
Qed.

(** X12.  ASCII white space before and after a code over the alphabet
    makes no difference to [GetLongURL]: the padded code resolves
    exactly as the bare one. *)
Theorem GetLongURL_ignores_blanks (pre code post : string) (s : Service) :
  blank pre -> blank post ->
  Forall (fun c => c ∈ alphabet) (chars code) ->
  GetLongURL (pre +:+ code +:+ post) s = GetLongURL code s.
Proof.
  intros Hpre Hpost Hcode.
  rewrite !GetLongURL_unfold, (TrimSpace_padded _ _ _ Hpre Hpost Hcode),
    (TrimSpace_alphabet _ Hcode).
  reflexivity.
Qed.

Lemma GetLongURL_ignores_blanks_witness :
  let s := mkService crowded_store sample_env in
  blank "  " /\ blank (String "009" (String "010" ""))
  /\ Forall (fun c => c ∈ alphabet) (chars "KNWX23")
  /\ GetLongURL ("  " +:+ "KNWX23" +:+ String "009" (String "010" "")) s
     = GetLongURL "KNWX23" s
  /\ fst (GetLongURL "KNWX23" s) = ("https://taken.example/", None).
Proof.
  cbv zeta.
  assert (H1 : blank "  ") by (repeat constructor).
  assert (H2 : blank (String "009" (String "010" ""))) by (repeat constructor).
  assert (H3 : Forall (fun c => c ∈ alphabet) (chars "KNWX23"))
    by (repeat constructor; by_listing).
  split; [exact H1 |]. split; [exact H2 |]. split; [exact H3 |].
  split; [| vm_compute; reflexivity].
  exact (GetLongURL_ignores_blanks "  " "KNWX23" (String "009" (String "010" ""))
           (mkService crowded_store sample_env) H1 H2 H3).
Defined.

(** ** handlers/http.go *)

Lemma sendErrorResponse_fields (w : Handlers.ResponseWriter) (statusCode : Z)
    (errorCode message : string) :
  Handlers.Code (Handlers.sendErrorResponse w statusCode errorCode message)
  = statusCode
  /\ Handlers.Written (Handlers.sendErrorResponse w statusCode errorCode message)
     = Handlers.ErrorResponse errorCode message
  /\ Handlers.Header (Handlers.sendErrorResponse w statusCode errorCode message)
       !! "Content-Type" = Some "application/json".
Proof.
  unfold Handlers.sendErrorResponse, Handlers.Encode, Handlers.WriteHeader,
    Handlers.Header_Set.
  cbn [Handlers.Code Handlers.Written Handlers.Header].
  by rewrite lookup_insert_eq.
Qed.

Lemma sendErrorResponse_answer (w : Handlers.ResponseWriter) (statusCode : Z)
    (errorCode message : string) :
  statusCode = 400 \/ statusCode = 405 \/ statusCode = 500 ->
  error_answer (Handlers.sendErrorResponse w statusCode errorCode message).
Proof.
  intros H. unfold error_answer.
  destruct (sendErrorResponse_fields w statusCode errorCode message)
    as (-> & -> & _).
  split; [exact H | by eauto].
Qed.

(** X13.  [Handler.ShortenURL] answers 201 exactly when it has stored
    the submitted URL under a code that was free, and then the body is
    the base URL, a slash and that code; every other answer is a 400,
    405 or 500 with an error body, and leaves the store as it was.
    For every service behind the handler. *)
Theorem handler_ShortenURL_outcomes
    (validateURL : string -> option error)
    (generateShortCode : string -> Z -> Env -> string * Env)
    (w : Handlers.ResponseWriter) (r : Handlers.Request) (s : Service) :
  let res := Handlers.ShortenURL validateURL generateShortCode w r s in
  (Handlers.Code (fst res) = 201
   /\ exists LongURL shortCode,
        Handlers.Body r = Handlers.ShortenRequest LongURL
        /\ Handlers.Written (fst res)
           = Handlers.ShortenResponse
               (Handlers.getBaseURL r +:+ "/" +:+ shortCode)
        /\ Store.urls (store s) !! shortCode = None
        /\ Store.urls (store (snd res))
           = <[shortCode := LongURL]> (Store.urls (store s)))
  \/ (error_answer (fst res) /\ store (snd res) = store s).
Proof.
  intros res. subst res. unfold Handlers.ShortenURL. cbv zeta.
  destruct (negb (String.eqb (Handlers.ContentType r) "application/json")).
  { right. split; [apply sendErrorResponse_answer; by left | reflexivity]. }
  destruct (negb (String.eqb (Handlers.Method r) "POST")).
  { right. split; [apply sendErrorResponse_answer; by right; left | reflexivity]. }
  destruct (Handlers.Body r) as [msg|LongURL] eqn:Hbody.
  { right. split; [apply sendErrorResponse_answer; by left | reflexivity]. }
  destruct (decide (Strings.TrimSpace LongURL = "")).
  { right. split; [apply sendErrorResponse_answer; by left | reflexivity]. }
  destruct (validateURL LongURL) as [err|] eqn:Hv.
  - rewrite (ShortenURL_rejected _ _ _ _ _ Hv). right.
    split; [| reflexivity].
    destruct (errors_Is err ErrInvalidURL);
      [apply sendErrorResponse_answer; by left |].
    destruct (errors_Is err ErrEmptyURL);
      [apply sendErrorResponse_answer; by left |].
    destruct (errors_Is err ErrMaxRetries);
      [apply sendErrorResponse_answer; by right; right |].
    destruct (Strings.Contains (Error err) "crítico");
      apply sendErrorResponse_answer; by right; right.
  - destruct (ShortenURL_accepted validateURL generateShortCode LongURL s Hv)
      as [(code & H1 & _ & H3 & H4) | (H1 & H2 & _)];
      destruct (ShortenURL validateURL generateShortCode LongURL s)
        as [[shortCode err] s1]; cbn [fst snd] in *; inversion H1; subst.
    + left. split; [reflexivity |]. exists LongURL, code. by repeat split.
    + right. split; [| exact H2].
      cbn [errors_Is]. apply sendErrorResponse_answer. by right; right.
Qed.

(** X14.  A target that is not blank but that [validateURL] rejects is
    answered with status 500, never 400: the rejection is a
    [ValidationError], which is none of the sentinels the handler looks
    for.  The service is left as it was.  Both revisions. *)
Theorem handler_answers_500_to_invalid_URL (rev : Revision)
    (Parse : string -> ParseResult)
    (w : Handlers.ResponseWriter) (r : Handlers.Request) (s : Service)
    (LongURL : string) (err : error) :
  Handlers.ContentType r = "application/json" ->
  Handlers.Method r = "POST" ->
  Handlers.Body r = Handlers.ShortenRequest LongURL ->
  Strings.TrimSpace LongURL <> "" ->
  rev_validateURL rev Parse LongURL = Some err ->
  let res := Handlers.ShortenURL (rev_validateURL rev Parse)
               (rev_generateShortCode rev) w r s in
  Handlers.Code (fst res) = 500
  /\ (Handlers.Written (fst res)
      = Handlers.ErrorResponse "internal_error" ("Error interno: " +:+ Error err)
      \/ Handlers.Written (fst res)
         = Handlers.ErrorResponse "critical_error" "Error crítico del sistema")
  /\ snd res = s.
Proof.
  intros Hct Hm Hb Ht Hv res. subst res. unfold Handlers.ShortenURL. cbv zeta.
  rewrite Hct, Hm, Hb. cbn [String.eqb Ascii.eqb Bool.eqb negb].
  replace (String.eqb "application/json" "application/json") with true
    by (symmetry; apply String.eqb_refl).
  replace (String.eqb "POST" "POST") with true
    by (symmetry; apply String.eqb_refl).
  cbn [negb].
  destruct (decide (Strings.TrimSpace LongURL = "")); [done |].
  rewrite (ShortenURL_rejected _ _ _ _ _ Hv).
  destruct (validateURL_error_shape rev Parse LongURL err Hv) as [Msg ->].
  cbn [errors_Is].
  destruct (Strings.Contains _ "crítico"); cbn [fst snd];
    match goal with
    | |- context [Handlers.sendErrorResponse ?a ?b ?c ?d] =>
        destruct (sendErrorResponse_fields a b c d) as (-> & -> & _)
    end; repeat split; by eauto.
Qed.

Lemma handler_answers_500_to_invalid_URL_witness :
  let r := Handlers.mkRequest "application/json" "POST"
             (Handlers.ShortenRequest "www.example.com") false "" "" "" in
  let err := ValidationError "long_url" "www.example.com"
               "debe usar esquema http o https" in
  let res := Handlers.ShortenURL (rev_validateURL Builder_revision sample_Parse)
               (rev_generateShortCode Builder_revision)
               Handlers.NewRecorder r sample_service in
  rev_validateURL Builder_revision sample_Parse "www.example.com" = Some err
  /\ Strings.TrimSpace "www.example.com" <> ""
  /\ (Handlers.Code (fst res) = 500
      /\ (Handlers.Written (fst res)
          = Handlers.ErrorResponse "internal_error"
              ("Error interno: " +:+ Error err)
          \/ Handlers.Written (fst res)
             = Handlers.ErrorResponse "critical_error" "Error crítico del sistema")
      /\ snd res = sample_service).
Proof.
  cbv zeta.
  assert (Hv : rev_validateURL Builder_revision sample_Parse "www.example.com"
               = Some (ValidationError "long_url" "www.example.com"
                         "debe usar esquema http o https"))
    by (vm_compute; reflexivity).
  assert (Ht : Strings.TrimSpace "www.example.com" <> "")
    by (vm_compute; discriminate).
  split; [exact Hv |]. split; [exact Ht |].
  exact (handler_answers_500_to_invalid_URL Builder_revision sample_Parse
           Handlers.NewRecorder
           (Handlers.mkRequest "application/json" "POST"
              (Handlers.ShortenRequest "www.example.com") false "" "" "")
           sample_service "www.example.com" _
           eq_refl eq_refl eq_refl Ht Hv).
Defined.

(** X15.  [Handler.RedirectURL] never changes the service and answers
    in one of four ways: 307 with the stored target, unaltered, in the
    header [Location], when the trimmed code is in the store; 404 when
    it is not; 400 when the parameter is empty; and 500, not 400, when
    the parameter is not empty but blank, because [ErrEmptyURL] is not
    among the errors the handler looks for. *)
Theorem handler_RedirectURL_outcomes
    (w : Handlers.ResponseWriter) (r : Handlers.Request) (s : Service) :
  let res := Handlers.RedirectURL w r s in
  let code := Strings.TrimSpace (Handlers.short_code r) in
  snd res = s
  /\ ((exists longURL,
          code <> "" /\ Store.urls (store s) !! code = Some longURL
          /\ Handlers.Code (fst res) = 307
          /\ Handlers.Header (fst res) !! "Location" = Some longURL
          /\ Handlers.Written (fst res) = Handlers.Written w)
      \/ (code <> "" /\ Store.urls (store s) !! code = None
          /\ Handlers.Code (fst res) = 404
          /\ Handlers.Written (fst res)
             = Handlers.ErrorResponse "not_found" "Código corto no encontrado")
      \/ (Handlers.short_code r = ""
          /\ Handlers.Code (fst res) = 400
          /\ Handlers.Written (fst res)
             = Handlers.ErrorResponse "missing_code" "Código corto requerido")
      \/ (Handlers.short_code r <> "" /\ code = ""
          /\ Handlers.Code (fst res) = 500
          /\ Handlers.Written (fst res)
             = Handlers.ErrorResponse "internal_error"
                 "Error interno: URL no puede estar vacía")).
Proof.
  intros res code. subst res code. unfold Handlers.RedirectURL. cbv zeta.
  destruct (decide (Handlers.short_code r = "")) as [He|He].
  { cbn [fst snd]. split; [reflexivity |]. right; right; left.
    destruct (sendErrorResponse_fields w Handlers.StatusBadRequest
                "missing_code" "Código corto requerido") as (-> & -> & _).
    by repeat split. }
  rewrite GetLongURL_unfold.
  destruct (decide (Strings.TrimSpace (Handlers.short_code r) = "")) as [Ht|Ht].
  { cbn [fst snd errors_Is]. split; [reflexivity |]. right; right; right.
    replace (Strings.Contains (Error ErrEmptyURL) "crítico") with false
      by (vm_compute; reflexivity).
    match goal with
    | |- context [Handlers.sendErrorResponse ?a ?b ?c ?d] =>
        destruct (sendErrorResponse_fields a b c d) as (-> & -> & _)
    end. by repeat split. }
  destruct (Store.urls (store s) !! Strings.TrimSpace (Handlers.short_code r))
    as [longURL|] eqn:E; cbn [fst snd errors_Is].
  - split; [reflexivity |]. left. exists longURL.
    unfold Handlers.WriteHeader, Handlers.Header_Set.
    cbn [Handlers.Code Handlers.Header Handlers.Written].
    rewrite lookup_insert_eq. by repeat split.
  - split; [reflexivity |]. right; left.
    match goal with
    | |- context [Handlers.sendErrorResponse ?a ?b ?c ?d] =>
        destruct (sendErrorResponse_fields a b c d) as (-> & -> & _)
    end. by repeat split.
Qed.

(** X16.  Round trip through the two handlers: when the answer to a
    POST announces a short URL, a GET whose parameter is the code at the
    end of that short URL is answered 307 with, as [Location], the very
    URL that was posted.  Both revisions. *)
Theorem handler_round_trip (rev : Revision) (Parse : string -> ParseResult)
    (w w2 : Handlers.ResponseWriter) (r r2 : Handlers.Request) (s : Service)
    (LongURL : string) :
  let post := Handlers.ShortenURL (rev_validateURL rev Parse)
                (rev_generateShortCode rev) w r s in
  Handlers.Body r = Handlers.ShortenRequest LongURL ->
  Handlers.Written (fst post)
  = Handlers.ShortenResponse
      (Handlers.getBaseURL r +:+ "/" +:+ Handlers.short_code r2) ->
  let get := Handlers.RedirectURL w2 r2 (snd post) in
  Handlers.Code (fst post) = 201
  /\ Handlers.Code (fst get) = 307
  /\ Handlers.Header (fst get) !! "Location" = Some LongURL
  /\ snd get = snd post.
Proof.
  intros post Hbody Hwritten get. subst post get.
  revert Hwritten. unfold Handlers.ShortenURL. cbv zeta. rewrite Hbody.
  destruct (negb (String.eqb (Handlers.ContentType r) "application/json"));
    [cbn [fst]; by destruct (sendErrorResponse_fields
       (Handlers.Header_Set "Content-Type" "application/json" w)
       Handlers.StatusBadRequest "invalid_content_type"
       "Content-Type debe ser application/json") as (_ & -> & _) |].
  destruct (negb (String.eqb (Handlers.Method r) "POST"));
    [cbn [fst]; by destruct (sendErrorResponse_fields
       (Handlers.Header_Set "Content-Type" "application/json" w)
       Handlers.StatusMethodNotAllowed "method_not_allowed"
       "Método no permitido") as (_ & -> & _) |].
  destruct (decide (Strings.TrimSpace LongURL = ""));
    [cbn [fst]; by destruct (sendErrorResponse_fields
       (Handlers.Header_Set "Content-Type" "application/json" w)
       Handlers.StatusBadRequest "empty_url"
       "La URL no puede estar vacía") as (_ & -> & _) |].
  destruct (rev_validateURL rev Parse LongURL) as [err|] eqn:Hv.
  { rewrite (ShortenURL_rejected _ _ _ _ _ Hv). cbn [fst].
    repeat match goal with
           | |- context [if ?c then _ else _] => destruct c
           end;
      match goal with
      | |- context [Handlers.sendErrorResponse ?a ?b ?c ?d] =>
          by destruct (sendErrorResponse_fields a b c d) as (_ & -> & _)
      end. }
  destruct (ShortenURL_accepted _ (rev_generateShortCode rev) LongURL s Hv)
    as [(code & H1 & H2 & _ & H4) | (H1 & _)];
    destruct (ShortenURL (rev_validateURL rev Parse)
                (rev_generateShortCode rev) LongURL s)
      as [[shortCode err] s1]; cbn [fst snd] in *; inversion H1; subst.
  2:{ cbn [errors_Is fst].
      by destruct (sendErrorResponse_fields
        (Handlers.Header_Set "Content-Type" "application/json" w)
        Handlers.StatusInternalServerError "generation_failed"
        "No se pudo generar un código único") as (_ & -> & _). }
  unfold Handlers.Encode, Handlers.WriteHeader.
  cbn [Handlers.Written Handlers.Code]. intros Hw.
  injection Hw as Hw. apply (inj _) in Hw. apply (inj _) in Hw.
  apply candidates_generated in H2 as (input & salt & e' & Hcode).
  destruct (rev_generateShortCode_shape rev input salt e') as [Hlen Hsym].
  rewrite <- Hcode in Hlen, Hsym.
  assert (Hclean : Forall (fun c => c ∈ alphabet) (chars code))
    by (eapply Forall_impl; [exact Hsym |]; intros c; apply hex_symbols_alphabet).
  assert (Hne : code <> "") by (intros ->; discriminate).
  split; [reflexivity |].
  unfold Handlers.RedirectURL. cbv zeta. cbn [fst snd]. rewrite <- Hw.
  destruct (decide (code = "")); [done |].
  rewrite GetLongURL_unfold, (TrimSpace_alphabet _ Hclean).
  destruct (decide (code = "")); [done |].
  rewrite H4, lookup_insert_eq. cbn [fst snd].
  unfold Handlers.WriteHeader, Handlers.Header_Set.
  cbn [Handlers.Code Handlers.Header]. rewrite lookup_insert_eq. by repeat split.
Qed.

Lemma handler_round_trip_witness :
  let r := Handlers.mkRequest "application/json" "POST"
             (Handlers.ShortenRequest "https://example.com/a")
             false "" "sho.rt" "" in
  let r2 := Handlers.mkRequest "" "GET" (Handlers.DecodeError "EOF")
              false "" "sho.rt" "OZX5MZ" in
  let post := Handlers.ShortenURL (rev_validateURL Builder_revision sample_Parse)
                (rev_generateShortCode Builder_revision)
                Handlers.NewRecorder r sample_service in
  let get := Handlers.RedirectURL Handlers.NewRecorder r2 (snd post) in
  Handlers.Written (fst post) = Handlers.ShortenResponse "http://sho.rt/OZX5MZ"
  /\ (Handlers.Code (fst post) = 201
      /\ Handlers.Code (fst get) = 307
      /\ Handlers.Header (fst get) !! "Location" = Some "https://example.com/a"
      /\ snd get = snd post).
Proof.
  cbv zeta.
  assert (Hw : Handlers.Written (fst (Handlers.ShortenURL
                  (rev_validateURL Builder_revision sample_Parse)
                  (rev_generateShortCode Builder_revision)
                  Handlers.NewRecorder
                  (Handlers.mkRequest "application/json" "POST"
                     (Handlers.ShortenRequest "https://example.com/a")
                     false "" "sho.rt" "")
                  sample_service))
               = Handlers.ShortenResponse "http://sho.rt/OZX5MZ")
    by (vm_compute; reflexivity).
  split; [exact Hw |].
  exact (handler_round_trip Builder_revision sample_Parse
           Handlers.NewRecorder Handlers.NewRecorder
           (Handlers.mkRequest "application/json" "POST"
              (Handlers.ShortenRequest "https://example.com/a")
              false "" "sho.rt" "")
           (Handlers.mkRequest "" "GET" (Handlers.DecodeError "EOF")
              false "" "sho.rt" "OZX5MZ")
           sample_service "https://example.com/a" eq_refl Hw).
Defined.

(** ** store.go: successive writes *)

(** X17.  Two [Save]s on the same key leave what the second alone would
    leave, and [Save]s on different keys can be swapped. *)
Theorem Save_composes (k1 k2 v1 v2 v : string) (st : Store.t) :
  k1 <> k2 ->
  snd (Store.Save k1 v (snd (Store.Save k1 v1 st))) = snd (Store.Save k1 v st)
  /\ snd (Store.Save k1 v1 (snd (Store.Save k2 v2 st)))
     = snd (Store.Save k2 v2 (snd (Store.Save k1 v1 st))).
Proof.
  intros Hne. unfold Store.Save. cbn [snd Store.urls]. split; f_equal.
  - apply insert_insert_eq.
  - by apply insert_insert_ne.
Qed.

Lemma Save_composes_witness :
  "OZX5MZ" <> "NYJ444"
  /\ (snd (Store.Save "OZX5MZ" "c" (snd (Store.Save "OZX5MZ" "a" crowded_store)))
      = snd (Store.Save "OZX5MZ" "c" crowded_store)
      /\ snd (Store.Save "OZX5MZ" "a" (snd (Store.Save "NYJ444" "b" crowded_store)))
         = snd (Store.Save "NYJ444" "b" (snd (Store.Save "OZX5MZ" "a" crowded_store)))).
Proof.
  assert (H : "OZX5MZ" <> "NYJ444") by discriminate.
  split; [exact H |].
  exact (Save_composes "OZX5MZ" "NYJ444" "a" "b" "c" crowded_store H).
Defined.

(** ** Two calls at once: every schedule *)

Ltac step_cases c :=
  unfold step, saving, Store.Exists, Store.Save;
  destruct (phase c)
    as [[|?remaining] ?attempt | ?remaining ?attempt ?shortCode
        | ?shortCode | ?result];
  cbv beta iota zeta;
  try match goal with
      | |- context [candidate ?g ?u ?a ?e] => destruct (candidate g u a e)
      end;
  try match goal with
      | |- context [Store.urls ?st !! ?k] => destruct (Store.urls st !! k)
      end;
  cbn [negb fst snd phase target store Store.urls].

Lemma step_target (generateShortCode : string -> Z -> Env -> string * Env)
    (c : Call) (s : Service) :
  target (fst (step generateShortCode c s)) = target c.
Proof. step_cases c; reflexivity. Qed.

(** A step writes to the store exactly when the call stands at
    [Saving], and then it is an unconditional insert. *)
Lemma step_store (generateShortCode : string -> Z -> Env -> string * Env)
    (c : Call) (s : Service) :
  Store.urls (store (snd (step generateShortCode c s)))
  = match saving c with
    | Some (k, v) => <[k := v]> (Store.urls (store s))
    | None => Store.urls (store s)
    end.
Proof. step_cases c; reflexivity. Qed.

(** A call returns a code only from [Saving] that code, or because it
    had returned it already. *)
Lemma step_Returned (generateShortCode : string -> Z -> Env -> string * Env)
    (c : Call) (s : Service) (code : string) :
  phase (fst (step generateShortCode c s)) = Returned (code, None) ->
  phase c = Returned (code, None) \/ saving c = Some (code, target c).
Proof.
  unfold step, saving, Store.Exists, Store.Save.
  destruct (phase c) as [[|remaining] attempt | remaining attempt shortCode
                        | shortCode | result] eqn:Hp; cbv beta iota zeta.
  - discriminate.
  - by destruct (candidate generateShortCode (target c) attempt (env s)).
  - by destruct (Store.urls (store s) !! shortCode).
  - cbn [fst phase]. intros H. inversion H; subst. by right.
  - cbn [fst]. rewrite Hp. intros H. by left.
Qed.

Lemma turn_scheduled (generateShortCode : string -> Z -> Env -> string * Env)
    (cfg : Config) (t t' : Turn) :
  scheduled (turn generateShortCode cfg t) t'
  = if decide (t = t')
    then fst (step generateShortCode (scheduled cfg t) (shared cfg))
    else scheduled cfg t'.
Proof.
  destruct t, t'; unfold turn; cbn [scheduled];
    destruct (step generateShortCode _ (shared cfg)); reflexivity.
Qed.

Lemma turn_shared (generateShortCode : string -> Z -> Env -> string * Env)
    (cfg : Config) (t : Turn) :
  shared (turn generateShortCode cfg t)
  = snd (step generateShortCode (scheduled cfg t) (shared cfg)).
Proof.
  destruct t; unfold turn; cbn [scheduled];
    destruct (step generateShortCode _ (shared cfg)); reflexivity.
Qed.

Lemma turn_target (generateShortCode : string -> Z -> Env -> string * Env)
    (cfg : Config) (t t' : Turn) :
  target (scheduled (turn generateShortCode cfg t) t') = target (scheduled cfg t').
Proof.
  rewrite turn_scheduled. destruct (decide (t = t')) as [->|_]; [| reflexivity].
  apply step_target.
Qed.

(** The store at the end of a run is the store at its start with the
    saves of the history applied in order: for each code the last
    write is the one that counts. *)
Lemma run_store (generateShortCode : string -> Z -> Env -> string * Env)
    (schedule : list Turn) (cfg : Config) (code : string) :
  Store.urls (store (shared (run generateShortCode schedule cfg))) !! code
  = match last_write (saves generateShortCode schedule cfg) code with
    | Some (_, v) => Some v
    | None => Store.urls (store (shared cfg)) !! code
    end.
Proof.
  revert cfg. induction schedule as [|t schedule IH]; intros cfg;
    [reflexivity |].
  unfold run in *. cbn [fold_left saves]. rewrite IH, turn_shared, step_store.
  destruct (saving (scheduled cfg t)) as [[k v]|]; [| reflexivity].
  cbn [last_write].
  destruct (last_write (saves generateShortCode schedule
                          (turn generateShortCode cfg t)) code)
    as [[w v']|]; [reflexivity |].
  destruct (decide (k = code)) as [->|Hne].
  - apply lookup_insert_eq.
  - by apply lookup_insert_ne.
Qed.

(** Every entry of the history carries the target of the call that
    made it. *)
Lemma saves_target (generateShortCode : string -> Z -> Env -> string * Env)
    (schedule : list Turn) (cfg : Config) (t : Turn) (k v : string) :
  (t, (k, v)) ∈ saves generateShortCode schedule cfg ->
  v = target (scheduled cfg t).
Proof.
  revert cfg. induction schedule as [|t0 schedule IH]; intros cfg;
    cbn [saves]; [by intros ?%elem_of_nil |].
  assert (Hrest : (t, (k, v)) ∈ saves generateShortCode schedule
                                  (turn generateShortCode cfg t0) ->
                  v = target (scheduled cfg t)).
  { intros H%IH. by rewrite turn_target in H. }
  destruct (saving (scheduled cfg t0)) as [[k0 v0]|] eqn:E; [| exact Hrest].
  intros [Heq|H]%elem_of_cons; [| by apply Hrest].
  inversion Heq; subst. unfold saving in E.
  destruct (phase (scheduled cfg t0)); inversion E. reflexivity.
Qed.

(** A call that has returned a code by the end of a run had returned
    it before the run, or saved it during the run. *)
Lemma returned_saved (generateShortCode : string -> Z -> Env -> string * Env)
    (schedule : list Turn) (cfg : Config) (t : Turn) (code : string) :
  phase (scheduled (run generateShortCode schedule cfg) t)
    = Returned (code, None) ->
  phase (scheduled cfg t) = Returned (code, None)
  \/ (t, (code, target (scheduled cfg t)))
       ∈ saves generateShortCode schedule cfg.
Proof.
  revert cfg. induction schedule as [|t0 schedule IH]; intros cfg;
    [by left |].
  unfold run in *. cbn [fold_left saves]. intros H.
  destruct (IH _ H) as [Hnow | Hlater].
  - rewrite turn_scheduled in Hnow.
    destruct (decide (t0 = t)) as [->|Hne]; [| by left].
    apply step_Returned in Hnow as [Hnow | Hsave]; [by left |].
    right. rewrite Hsave. apply list_elem_of_here.
  - right. rewrite turn_target in Hlater.
    destruct (saving (scheduled cfg t0)); [by apply list_elem_of_further |].
    exact Hlater.
Qed.

Lemma last_write_In (history : list (Turn * (string * string)))
    (w : Turn) (code v : string) :
  last_write history code = Some (w, v) -> (w, (code, v)) ∈ history.
Proof.
  induction history as [|[t0 [k0 v0]] history IH];
    cbn [last_write]; [discriminate |].
  destruct (last_write history code) as [p|].
  - intros Hp. inversion Hp; subst. by apply list_elem_of_further, IH.
  - destruct (decide (k0 = code)) as [->|]; [| discriminate].
    intros Hp. inversion Hp; subst. apply list_elem_of_here.
Qed.

Lemma last_write_elem (history : list (Turn * (string * string)))
    (t : Turn) (code v : string) :
  (t, (code, v)) ∈ history ->
  exists w v', last_write history code = Some (w, v')
               /\ (w, (code, v')) ∈ history.
Proof.
  intros H.
  assert (Hsome : is_Some (last_write history code)).
  { induction history as [|[t0 [k0 v0]] history IH];
      [by apply elem_of_nil in H |].
    cbn [last_write].
    destruct (last_write history code) as [p|] eqn:E; [by eauto |].
    apply elem_of_cons in H as [Heq | H].
    - injection Heq as _ <- _. destruct (decide (code = code)); [by eauto | done].
    - destruct (IH H) as [? ?]. discriminate. }
  destruct Hsome as [[w v'] Hw]. exists w, v'.
  split; [exact Hw | by apply last_write_In].
Qed.

(** C8.  The existence check and the save are separate critical
    sections and the save does not check again, so two concurrent
    calls can both see the same code absent and both insert it; on
    every schedule such a double claim resolves as last-writer-wins:
    both calls have saved the code with their own target, and the
    store ends up holding, for that code, the target of the call whose
    [Save] came last. *)
Theorem double_claim_resolves_last_writer_wins
    (generateShortCode : string -> Z -> Env -> string * Env)
    (longURL1 longURL2 : string) (s : Service) (schedule : list Turn)
    (code : string) :
  let cfg := mkConfig (start longURL1) (start longURL2) s in
  let final := run generateShortCode schedule cfg in
  let history := saves generateShortCode schedule cfg in
  phase (call1 final) = Returned (code, None) ->
  phase (call2 final) = Returned (code, None) ->
  (T1, (code, longURL1)) ∈ history
  /\ (T2, (code, longURL2)) ∈ history
  /\ exists w,
       last_write history code
       = Some (w, match w with T1 => longURL1 | T2 => longURL2 end)
       /\ fst (Store.Get code (store (shared final)))
          = (match w with T1 => longURL1 | T2 => longURL2 end, true).
Proof.
  intros cfg final history H1 H2.
  assert (Hs1 : (T1, (code, longURL1)) ∈ history).
  { destruct (returned_saved generateShortCode schedule cfg T1 code H1)
      as [Habs | Hin]; [discriminate | exact Hin]. }
  assert (Hs2 : (T2, (code, longURL2)) ∈ history).
  { destruct (returned_saved generateShortCode schedule cfg T2 code H2)
      as [Habs | Hin]; [discriminate | exact Hin]. }
  split; [exact Hs1 |]. split; [exact Hs2 |].
  destruct (last_write_elem history T1 code longURL1 Hs1)
    as (w & v & Hlast & Hin).
  apply saves_target in Hin. exists w.
  assert (Hv : v = match w with T1 => longURL1 | T2 => longURL2 end)
    by (rewrite Hin; by destruct w).
  subst v. rewrite Hv in Hlast. split; [exact Hlast |].
  unfold Store.Get. cbn [fst]. subst final.
  rewrite run_store. fold history. by rewrite Hlast.
Qed.

Lemma double_claim_resolves_last_writer_wins_witness :
  let cfg := mkConfig (start "https://example.com/104")
               (start "https://example.org/3479") sample_service in
  let schedule := [T1; T1; T2; T2; T1; T2] in
  let final := run Builder.generateShortCode schedule cfg in
  let history := saves Builder.generateShortCode schedule cfg in
  phase (call1 final) = Returned ("145W40", None)
  /\ phase (call2 final) = Returned ("145W40", None)
  /\ history = [(T1, ("145W40", "https://example.com/104"));
                (T2, ("145W40", "https://example.org/3479"))]
  /\ ((T1, ("145W40", "https://example.com/104")) ∈ history
      /\ (T2, ("145W40", "https://example.org/3479")) ∈ history
      /\ exists w,
           last_write history "145W40"
           = Some (w, match w with
                      | T1 => "https://example.com/104"
                      | T2 => "https://example.org/3479"
                      end)
           /\ fst (Store.Get "145W40" (store (shared final)))
              = (match w with
                 | T1 => "https://example.com/104"
                 | T2 => "https://example.org/3479"
                 end, true)).
Proof.
  cbv zeta.
  assert (H1 : phase (call1 (run Builder.generateShortCode
                  [T1; T1; T2; T2; T1; T2]
                  (mkConfig (start "https://example.com/104")
                     (start "https://example.org/3479") sample_service)))
               = Returned ("145W40", None)) by (vm_compute; reflexivity).
  assert (H2 : phase (call2 (run Builder.generateShortCode
                  [T1; T1; T2; T2; T1; T2]
                  (mkConfig (start "https://example.com/104")
                     (start "https://example.org/3479") sample_service)))
               = Returned ("145W40", None)) by (vm_compute; reflexivity).
  split; [exact H1 |]. split; [exact H2 |].
  split; [vm_compute; reflexivity |].
  exact (double_claim_resolves_last_writer_wins Builder.generateShortCode
           "https://example.com/104" "https://example.org/3479"
           sample_service [T1; T1; T2; T2; T1; T2] "145W40" H1 H2).
Defined.
